(** * The reimbursement form workflow of [agents/adk_nextjs/agent.py]

    A shallow embedding of the three tool functions of the agent
    ([create_request_form], [return_form], [reimburse]) together with the
    module-level registry [request_ids], and the properties the
    specification states about them.

    Conventions of the embedding.
    - A Python [str] is a [string]: one character per code point, code
      points below 256.
    - A Python [dict] is an association list in insertion order (the order
      is observable through [list(d.keys())] and [json.dumps]).
    - The values a snapshot can hold are the JSON-serialisable ones with
      integer numbers, type [json].  Binary floating point is not modelled.
    - The module state (the registry and the state of the [random] module)
      is threaded explicitly as a [world]; the caller's [ToolContext] is
      passed in and handed back.
    - A call either returns a value or leaves by an exception, type
      [outcome]; writes made before the exception stay made. *)

From stdpp Require Import base gmap strings pretty list.
From Stdlib Require Import ZArith Lia Ascii String.

Local Open Scope Z_scope.
Local Open Scope string_scope.

Set Warnings "-register-all,-clear-no-such-hyp".

(** ** Python values *)

Inductive json : Type :=
  | JNull
  | JBool (b : bool)
  | JInt (z : Z)
  | JStr (s : string)
  | JList (l : list json)
  | JDict (d : list (string * json)).

(** A [dict[str, Any]]. *)
Abbreviation dict := (list (string * json)).

(** [list(d.keys())]. *)
Definition keys (d : dict) : list string := map fst d.

(** [d[k]], [None] standing for [KeyError]. *)
Fixpoint getitem (k : string) (d : dict) : option json :=
  match d with
  | [] => None
  | (k', v) :: d' => if String.eqb k k' then Some v else getitem k d'
  end.

(** [d[k] = v]: a present key keeps its position and takes the new value, a
    new key goes last. *)
Fixpoint setitem (k : string) (v : json) (d : dict) : dict :=
  match d with
  | [] => [(k, v)]
  | (k', v') :: d' =>
      if String.eqb k k' then (k, v) :: d' else (k', v') :: setitem k v d'
  end.

(** ** Exceptions *)

Inductive exn : Type :=
  | JSONDecodeError
  | AttributeError.

(** What a call does: return, raise, or leave the modelled fragment (the text
    read holds a floating-point literal or an escape for a code point from
    256 on). *)
Inductive outcome (A : Type) : Type :=
  | Return (a : A)
  | Raise (e : exn)
  | Unmodelled.
Arguments Return {A} a.
Arguments Raise {A} e.
Arguments Unmodelled {A}.

(** ** Module state *)

(** [request_ids = set()] and the generator behind [random.randint]: the
    generator is the stream of its future raw outputs. *)
Record world : Type := World {
  request_ids : gset string;
  rng : nat -> Z;
}.

(** State at import time, for a generator seeded with [g]. *)
Definition initial (g : nat -> Z) : world :=
  {| request_ids := ∅; rng := g |}.

(** [random.randint(a, b)]: an integer [n] with [a <= n <= b], taken from the
    next raw output; the generator advances. *)
Definition randint (a b : Z) (w : world) : Z * world :=
  (a + rng w 0%nat `mod` (b - a + 1),
   {| request_ids := request_ids w; rng := fun i => rng w (S i) |}).

(** [str(n)] for an [int]. *)
Definition str (n : Z) : string := pretty n.

(** [request_ids.add(x)]. *)
Definition registry_add (x : string) (w : world) : world :=
  {| request_ids := {[ x ]} ∪ request_ids w; rng := rng w |}.

(** ** [create_request_form] *)

(** [not s] for [s : str | None]. *)
Definition falsy (s : option string) : bool :=
  match s with
  | None => true
  | Some s => String.eqb s ""
  end.

(** [placeholder if not s else s]. *)
Definition or_placeholder (placeholder : string) (s : option string) : string :=
  match s with
  | Some v => if falsy s then placeholder else v
  | None => placeholder
  end.

Definition create_request_form (date amount purpose : option string)
    (w : world) : outcome dict * world :=
  let '(n, w) := randint 1000000 9999999 w in
  let request_id := "request_id_" +:+ str n in
  let w := registry_add request_id w in
  (Return
     [ ("request_id", JStr request_id);
       ("date", JStr (or_placeholder "<transaction date>" date));
       ("amount", JStr (or_placeholder "<transaction dollar amount>" amount));
       ("purpose",
        JStr (or_placeholder
                "<business justification/purpose of the transaction>" purpose)) ],
   w).

(** ** [reimburse] *)

Definition reimburse (request_id : string) (w : world) : outcome dict * world :=
  if decide (request_id ∉ request_ids w) then
    (Return [ ("request_id", JStr request_id);
              ("status", JStr "Error: Invalid request_id.") ],
     w)
  else
    (Return [ ("request_id", JStr request_id); ("status", JStr "approved") ], w).

(** ** [json.dumps]

    The encoder with its defaults: [ensure_ascii=True], separators [", "] and
    [": "], keys in insertion order. *)

Definition dquote : ascii := "034"%char.
Definition backslash : ascii := "092"%char.

Definition hex_digit (n : N) : ascii :=
  match String.get (N.to_nat n) "0123456789abcdef" with
  | Some c => c
  | None => "0"%char
  end.

(** The replacement [ESCAPE_ASCII] makes for one character: the short escapes
    of [ESCAPE_DCT], the character itself from space to tilde, [\u00xx]
    otherwise. *)
Definition escape_char (c : ascii) : string :=
  let n := N_of_ascii c in
  if Ascii.eqb c backslash then String backslash (String backslash "")
  else if Ascii.eqb c dquote then String backslash (String dquote "")
  else if (n =? 8)%N then String backslash "b"
  else if (n =? 12)%N then String backslash "f"
  else if (n =? 10)%N then String backslash "n"
  else if (n =? 13)%N then String backslash "r"
  else if (n =? 9)%N then String backslash "t"
  else if ((32 <=? n) && (n <=? 126))%N then String c ""
  else String backslash
         ("u00" +:+ String (hex_digit (n / 16)) (String (hex_digit (n mod 16)) "")).

Fixpoint escape_string (s : string) : string :=
  match s with
  | EmptyString => ""
  | String c s' => escape_char c +:+ escape_string s'
  end.

(** [py_encode_basestring_ascii]. *)
Definition encode_basestring_ascii (s : string) : string :=
  String dquote (escape_string s +:+ String dquote "").

Fixpoint json_dumps (v : json) : string :=
  match v with
  | JNull => "null"
  | JBool true => "true"
  | JBool false => "false"
  | JInt z => str z
  | JStr s => encode_basestring_ascii s
  | JList l => "[" +:+ String.concat ", " (map json_dumps l) +:+ "]"
  | JDict d =>
      "{" +:+
      String.concat ", "
        (map (fun kv => encode_basestring_ascii (fst kv) +:+ ": " +:+ json_dumps (snd kv)) d)
      +:+ "}"
  end.

(** ** [json.loads]

    The decoder with its defaults ([strict=True], no hooks), following
    [json.decoder] and [json.scanner]: [scanstring], the number pattern,
    [JSONArray], [JSONObject], [scan_once] and [decode].  A position in the
    text is the suffix that starts there. *)

(** What scanning at a position gives: a value and the position after it, a
    [JSONDecodeError] (also for the scanner's [StopIteration], which every
    caller turns into one), a value outside [json], or no fuel left. *)
Inductive scan (A : Type) : Type :=
  | Scanned (a : A) (rest : string)
  | Malformed
  | NotModelled
  | Exhausted.
Arguments Scanned {A} a rest.
Arguments Malformed {A}.
Arguments NotModelled {A}.
Arguments Exhausted {A}.

Definition scan_map {A B : Type} (f : A -> B) (r : scan A) : scan B :=
  match r with
  | Scanned a rest => Scanned (f a) rest
  | Malformed => Malformed
  | NotModelled => NotModelled
  | Exhausted => Exhausted
  end.

(** The characters of [WHITESPACE]: space, tab, line feed, carriage return. *)
Definition is_ws (c : ascii) : bool :=
  let n := N_of_ascii c in
  ((n =? 32) || (n =? 9) || (n =? 10) || (n =? 13))%N.

Fixpoint skip_ws (s : string) : string :=
  match s with
  | String c s' => if is_ws c then skip_ws s' else s
  | EmptyString => s
  end.

Definition is_digit (c : ascii) : bool :=
  let n := N_of_ascii c in ((48 <=? n) && (n <=? 57))%N.

Definition digit_value (c : ascii) : Z := Z.of_N (N_of_ascii c) - 48.

Definition hex_value (c : ascii) : option N :=
  let n := N_of_ascii c in
  if ((48 <=? n) && (n <=? 57))%N then Some (n - 48)%N
  else if ((97 <=? n) && (n <=? 102))%N then Some (n - 87)%N
  else if ((65 <=? n) && (n <=? 70))%N then Some (n - 55)%N
  else None.

(** The character a one-letter escape stands for ([BACKSLASH]). *)
Definition unescape (c : ascii) : option ascii :=
  if Ascii.eqb c dquote then Some dquote
  else if Ascii.eqb c backslash then Some backslash
  else if Ascii.eqb c "/" then Some "/"%char
  else if Ascii.eqb c "b" then Some "008"%char
  else if Ascii.eqb c "f" then Some "012"%char
  else if Ascii.eqb c "n" then Some "010"%char
  else if Ascii.eqb c "r" then Some "013"%char
  else if Ascii.eqb c "t" then Some "009"%char
  else None.

(** [scanstring(s, end, strict=True)], from the character after the opening
    quote: the decoded text and the position after the closing quote.  An
    escape [\uXXXX] for a code point from 256 on is outside the model. *)
Fixpoint scanstring (s : string) : scan string :=
  match s with
  | EmptyString => Malformed
  | String c s' =>
      if Ascii.eqb c dquote then Scanned "" s'
      else if Ascii.eqb c backslash then
        match s' with
        | EmptyString => Malformed
        | String e s'' =>
            if Ascii.eqb e "u" then
              match s'' with
              | String h1 (String h2 (String h3 (String h4 r))) =>
                  match hex_value h1, hex_value h2, hex_value h3, hex_value h4 with
                  | Some a, Some b, Some c, Some d =>
                      if ((a =? 0) && (b =? 0))%N
                      then scan_map (String (ascii_of_N (16 * c + d))) (scanstring r)
                      else NotModelled
                  | _, _, _, _ => Malformed
                  end
              | _ => Malformed
              end
            else
              match unescape e with
              | Some ch => scan_map (String ch) (scanstring s'')
              | None => Malformed
              end
        end
      else if (N_of_ascii c <? 32)%N then Malformed
      else scan_map (String c) (scanstring s')
  end.

(** The longest run of digits at [s], read in base ten after [acc]. *)
Fixpoint digits (acc : Z) (s : string) : Z * string :=
  match s with
  | String c s' => if is_digit c then digits (10 * acc + digit_value c) s' else (acc, s)
  | EmptyString => (acc, s)
  end.

Definition starts_with_digit (s : string) : bool :=
  match s with
  | String c _ => is_digit c
  | EmptyString => false
  end.

(** Does the fraction group or the exponent group of [NUMBER_RE] match at
    [s]?  Then the literal is a [float]. *)
Definition float_tail (s : string) : bool :=
  match s with
  | String "." r => starts_with_digit r
  | String "e" r | String "E" r =>
      match r with
      | String "+" r' | String "-" r' => starts_with_digit r'
      | _ => starts_with_digit r
      end
  | _ => false
  end.

(** [s[len(p):]] when [s] starts with [p]. *)
Fixpoint strip_prefix (p s : string) : option string :=
  match p, s with
  | EmptyString, _ => Some s
  | String a p', String b s' => if Ascii.eqb a b then strip_prefix p' s' else None
  | String _ _, EmptyString => None
  end.

(** [match_number]: [None] when [NUMBER_RE] does not match at [s]. *)
Definition match_number (s : string) : option (scan json) :=
  let '(negative, s1) :=
    match strip_prefix "-" s with
    | Some r => (true, r)
    | None => (false, s)
    end in
  let finish (n : Z) (r : string) : option (scan json) :=
    if float_tail r then Some NotModelled
    else Some (Scanned (JInt (if negative then - n else n)) r) in
  match s1 with
  | String c r =>
      if Ascii.eqb c "0" then finish 0 r
      else if is_digit c then let '(n, r') := digits (digit_value c) r in finish n r'
      else None
  | EmptyString => None
  end.

(** [dict(pairs)]. *)
Definition dict_of_pairs (pairs : list (string * json)) : dict :=
  fold_left (fun d kv => setitem (fst kv) (snd kv) d) pairs [].

(** The constants and the float names [scan_once] tries when the text is
    neither a string, an object, an array nor a number. *)
Definition scan_constant (s : string) : scan json :=
  match strip_prefix "null" s with
  | Some r => Scanned JNull r
  | None =>
  match strip_prefix "true" s with
  | Some r => Scanned (JBool true) r
  | None =>
  match strip_prefix "false" s with
  | Some r => Scanned (JBool false) r
  | None =>
  match match_number s with
  | Some r => r
  | None =>
  match strip_prefix "NaN" s, strip_prefix "Infinity" s, strip_prefix "-Infinity" s with
  | None, None, None => Malformed
  | _, _, _ => NotModelled
  end end end end end.

(** [scan_once] with the loops of [JSONArray] and [JSONObject].  [array_loop]
    starts at a value, [object_loop] after the opening quote of a key; both
    carry the items read so far, last first. *)
Fixpoint scan_once (fuel : nat) (s : string) : scan json :=
  match fuel with
  | O => Exhausted
  | S fuel =>
      match s with
      | EmptyString => Malformed
      | String c s' =>
          if Ascii.eqb c dquote then scan_map JStr (scanstring s')
          else if Ascii.eqb c "{" then
            match strip_prefix "}" (skip_ws s') with
            | Some r => Scanned (JDict []) r
            | None =>
                match strip_prefix (String dquote "") (skip_ws s') with
                | Some r => object_loop fuel [] r
                | None => Malformed
                end
            end
          else if Ascii.eqb c "[" then
            match strip_prefix "]" (skip_ws s') with
            | Some r => Scanned (JList []) r
            | None => array_loop fuel [] (skip_ws s')
            end
          else scan_constant s
      end
  end
with array_loop (fuel : nat) (values : list json) (s : string) : scan json :=
  match fuel with
  | O => Exhausted
  | S fuel =>
      match scan_once fuel s with
      | Scanned value r =>
          match strip_prefix "]" (skip_ws r) with
          | Some r' => Scanned (JList (rev (value :: values))) r'
          | None =>
              match strip_prefix "," (skip_ws r) with
              | Some r' => array_loop fuel (value :: values) (skip_ws r')
              | None => Malformed
              end
          end
      | Malformed => Malformed
      | NotModelled => NotModelled
      | Exhausted => Exhausted
      end
  end
with object_loop (fuel : nat) (pairs : list (string * json)) (s : string) : scan json :=
  match fuel with
  | O => Exhausted
  | S fuel =>
      match scanstring s with
      | Scanned key r =>
          match strip_prefix ":" (skip_ws r) with
          | Some r1 =>
              match scan_once fuel (skip_ws r1) with
              | Scanned value r2 =>
                  match strip_prefix "}" (skip_ws r2) with
                  | Some r3 =>
                      Scanned (JDict (dict_of_pairs (rev ((key, value) :: pairs)))) r3
                  | None =>
                      match strip_prefix "," (skip_ws r2) with
                      | Some r3 =>
                          match strip_prefix (String dquote "") (skip_ws r3) with
                          | Some r4 => object_loop fuel ((key, value) :: pairs) r4
                          | None => Malformed
                          end
                      | None => Malformed
                      end
                  end
              | Malformed => Malformed
              | NotModelled => NotModelled
              | Exhausted => Exhausted
              end
          | None => Malformed
          end
      | Malformed => Malformed
      | NotModelled => NotModelled
      | Exhausted => Exhausted
      end
  end.

(** [JSONDecoder.decode]: leading whitespace, one value, trailing whitespace,
    then the end of the text ([Extra data] otherwise). *)
Definition decode (fuel : nat) (s : string) : outcome json :=
  match scan_once fuel (skip_ws s) with
  | Scanned obj r =>
      match skip_ws r with
      | EmptyString => Return obj
      | String _ _ => Raise JSONDecodeError
      end
  | Malformed => Raise JSONDecodeError
  | NotModelled => Unmodelled
  | Exhausted => Unmodelled
  end.

(** [json.loads(s)] for a [str].  The fuel is never used up
    ([json_loads_fuel] below). *)
Definition json_loads (s : string) : outcome json :=
  decode (2 * String.length s + 2) s.

(** ** [return_form] *)

(** [ToolContext] and its [actions] (an [EventActions]).  The two flags are
    [Optional[bool]]; every other attribute of either object is kept, by
    name, in a map. *)
Record EventActions : Type := {
  skip_summarization : option bool;
  escalate : option bool;
  other_actions : gmap string json;
}.

Record ToolContext : Type := {
  actions : EventActions;
  other_attributes : gmap string json;
}.

(** [tool_context.actions.skip_summarization = v]. *)
Definition set_skip_summarization (v : bool) (c : ToolContext) : ToolContext :=
  {| actions := {| skip_summarization := Some v;
                   escalate := escalate (actions c);
                   other_actions := other_actions (actions c) |};
     other_attributes := other_attributes c |}.

(** [tool_context.actions.escalate = v]. *)
Definition set_escalate (v : bool) (c : ToolContext) : ToolContext :=
  {| actions := {| skip_summarization := skip_summarization (actions c);
                   escalate := Some v;
                   other_actions := other_actions (actions c) |};
     other_attributes := other_attributes c |}.

(** The argument [form_request]: declared a [dict], tested for [str]. *)
Inductive form_request_arg : Type :=
  | ArgStr (s : string)
  | ArgDict (d : dict).

(** [x.keys()]: only a [dict] has the attribute. *)
Definition keys_method (x : json) : outcome (list string) :=
  match x with
  | JDict d => Return (keys d)
  | _ => Raise AttributeError
  end.

(** A [str | None] as a value. *)
Definition of_optional_str (s : option string) : json :=
  match s with
  | Some s => JStr s
  | None => JNull
  end.

(** The literal bound to [form_dict], given the value of
    [list(form_request.keys())]. *)
Definition form_dict (required : list string) (form_request : json)
    (instructions : option string) : json :=
  JDict
    [ ("type", JStr "form");
      ("form",
       JDict
         [ ("type", JStr "object");
           ("properties",
            JDict
              [ ("date",
                 JDict [ ("type", JStr "string");
                         ("format", JStr "date");
                         ("description", JStr "Date of expense");
                         ("title", JStr "Date") ]);
                ("amount",
                 JDict [ ("type", JStr "string");
                         ("format", JStr "number");
                         ("description", JStr "Amount of expense");
                         ("title", JStr "Amount") ]);
                ("purpose",
                 JDict [ ("type", JStr "string");
                         ("description", JStr "Purpose of expense");
                         ("title", JStr "Purpose") ]);
                ("request_id",
                 JDict [ ("type", JStr "string");
                         ("description", JStr "Request id");
                         ("title", JStr "Request ID") ]) ]);
           ("required", JList (map JStr required)) ]);
      ("form_data", form_request);
      ("instructions", of_optional_str instructions) ].

(** [if isinstance(form_request, str): form_request = json.loads(form_request)]:
    the value [form_request] is bound to afterwards. *)
Definition load_form_request (form_request : form_request_arg) : outcome json :=
  match form_request with
  | ArgStr s => json_loads s
  | ArgDict d => Return (JDict d)
  end.

Definition return_form (form_request : form_request_arg)
    (tool_context : ToolContext) (instructions : option string)
    : outcome string * ToolContext :=
  match load_form_request form_request with
  | Raise e => (Raise e, tool_context)
  | Unmodelled => (Unmodelled, tool_context)
  | Return form_request =>
      let tool_context := set_skip_summarization true tool_context in
      let tool_context := set_escalate true tool_context in
      match keys_method form_request with
      | Return required =>
          (Return (json_dumps (form_dict required form_request instructions)),
           tool_context)
      | Raise e => (Raise e, tool_context)
      | Unmodelled => (Unmodelled, tool_context)
      end
  end.

(** ** Runs *)

(** The numbers [random.randint(1000000, 9999999)] returns in [n] calls in a
    row. *)
Fixpoint draws (n : nat) (w : world) : list Z :=
  match n with
  | O => []
  | S n' => let '(x, w') := randint 1000000 9999999 w in x :: draws n' w'
  end.

(** [reimburse(request_id)] called [n] times in a row. *)
Fixpoint reimburse_times (n : nat) (request_id : string) (w : world)
    : list (outcome dict) * world :=
  match n with
  | O => ([], w)
  | S n' =>
      let '(r, w1) := reimburse request_id w in
      let '(rs, w2) := reimburse_times n' request_id w1 in
      (r :: rs, w2)
  end.

(** The arguments of one call of [create_request_form]. *)
Record request_args : Type := {
  arg_date : option string;
  arg_amount : option string;
  arg_purpose : option string;
}.

(** [r["request_id"]] of a returned snapshot. *)
Definition returned_id (r : outcome dict) : option string :=
  match r with
  | Return d =>
      match getitem "request_id" d with
      | Some (JStr i) => Some i
      | _ => None
      end
  | _ => None
  end.

(** The calls of [create_request_form] one after the other: what each
    returned, and the state at the end. *)
Fixpoint create_all (calls : list request_args) (w : world)
    : list (outcome dict) * world :=
  match calls with
  | [] => ([], w)
  | a :: calls' =>
      let '(r, w1) := create_request_form (arg_date a) (arg_amount a) (arg_purpose a) w in
      let '(rs, w2) := create_all calls' w1 in
      (r :: rs, w2)
  end.

(** ** Notions the properties are stated with *)

(** The identifier [create_request_form] builds from the number drawn. *)
Definition id_of (n : Z) : string := "request_id_" +:+ str n.

(** The identifiers of all the numbers [random.randint(1000000, 9999999)] can
    return. *)
Definition all_ids : gset string :=
  list_to_set (id_of <$> seqZ 1000000 9000000).

(** The value [create_request_form] stores for a field: the placeholder when
    the argument is [None] or empty, the argument otherwise. *)
Definition field_value (placeholder : string) (s : option string) : string :=
  match s with
  | None | Some EmptyString => placeholder
  | Some v => v
  end.

(** The context after the two writes of [return_form]. *)
Definition escalated (c : ToolContext) : ToolContext :=
  {| actions := {| skip_summarization := Some true;
                   escalate := Some true;
                   other_actions := other_actions (actions c) |};
     other_attributes := other_attributes c |}.

(** The snapshot an argument stands for: the [dict] itself, or the [dict] a
    [str] decodes to. *)
Definition snapshot_of (form_request : form_request_arg) : option dict :=
  match load_form_request form_request with
  | Return (JDict d) => Some d
  | _ => None
  end.

(** The [properties] of every descriptor. *)
Definition properties_schema : json :=
  JDict
    [ ("date",
       JDict [ ("type", JStr "string"); ("format", JStr "date");
               ("description", JStr "Date of expense"); ("title", JStr "Date") ]);
      ("amount",
       JDict [ ("type", JStr "string"); ("format", JStr "number");
               ("description", JStr "Amount of expense"); ("title", JStr "Amount") ]);
      ("purpose",
       JDict [ ("type", JStr "string");
               ("description", JStr "Purpose of expense"); ("title", JStr "Purpose") ]);
      ("request_id",
       JDict [ ("type", JStr "string");
               ("description", JStr "Request id"); ("title", JStr "Request ID") ]) ].

(** [r["status"]] of a returned result. *)
Definition returned_status (r : outcome dict) : option string :=
  match r with
  | Return d =>
      match getitem "status" d with
      | Some (JStr s) => Some s
      | _ => None
      end
  | _ => None
  end.

(** ** Sessions of tool calls *)

(** One call of a tool of the agent ([tools] of [_build_agent]) with its
    arguments; [return_form] gets the context of its own call. *)
Inductive tool_call : Type :=
  | CallCreate (a : request_args)
  | CallReturnForm (form_request : form_request_arg) (tool_context : ToolContext)
                   (instructions : option string)
  | CallReimburse (request_id : string).

(** What the call gave back. *)
Inductive tool_result : Type :=
  | Created (r : outcome dict)
  | Formed (r : outcome string) (tool_context : ToolContext)
  | Reimbursed (r : outcome dict).

Definition call_tool (c : tool_call) (w : world) : tool_result * world :=
  match c with
  | CallCreate a =>
      let '(r, w') := create_request_form (arg_date a) (arg_amount a) (arg_purpose a) w in
      (Created r, w')
  | CallReturnForm form_request tool_context instructions =>
      let '(r, tool_context') := return_form form_request tool_context instructions in
      (Formed r tool_context', w)
  | CallReimburse request_id =>
      let '(r, w') := reimburse request_id w in
      (Reimbursed r, w')
  end.

(** The calls of a session in order, on the one module state. *)
Fixpoint call_tools (calls : list tool_call) (w : world) : list tool_result * world :=
  match calls with
  | [] => ([], w)
  | c :: calls' =>
      let '(r, w1) := call_tool c w in
      let '(rs, w2) := call_tools calls' w1 in
      (r :: rs, w2)
  end.

(** The identifier a call minted, for a call of [create_request_form]. *)
Definition minted (r : tool_result) : option string :=
  match r with
  | Created r => returned_id r
  | _ => None
  end.

(** The result of [reimburse] for an approved request. *)
Definition approved (request_id : string) : outcome dict :=
  Return [ ("request_id", JStr request_id); ("status", JStr "approved") ].

(** The identifiers minted in a session, in order, repeats included. *)
Definition minted_ids (results : list tool_result) : list string :=
  omap minted results.

(** ** Notions for the JSON round trip *)

(** Are the texts of [l] pairwise different? *)
Fixpoint distinct (l : list string) : bool :=
  match l with
  | [] => true
  | x :: l' => negb (existsb (String.eqb x) l') && distinct l'
  end.

(** A value as Python builds it: no [dict] in it holds a key twice. *)
Fixpoint unique_keys (v : json) : bool :=
  match v with
  | JList l => forallb unique_keys l
  | JDict d => distinct (map fst d) && forallb (fun kv => unique_keys (snd kv)) d
  | _ => true
  end.

(** Does the text end here, or go on with a [,], a []] or a [}]?  That is
    what follows a value inside a JSON text. *)
Definition at_delimiter (s : string) : bool :=
  match s with
  | EmptyString => true
  | String c _ => Ascii.eqb c "," || Ascii.eqb c "]" || Ascii.eqb c "}"
  end.

(** The characters a JSON value written by [json_dumps] can start with. *)
Definition value_start (c : ascii) : bool :=
  is_digit c || Ascii.eqb c "-" || Ascii.eqb c dquote || Ascii.eqb c "["
  || Ascii.eqb c "{" || Ascii.eqb c "n" || Ascii.eqb c "t" || Ascii.eqb c "f".

(** Is every character of the text printable ASCII (space to tilde)? *)
Fixpoint printable_ascii (s : string) : bool :=
  match s with
  | EmptyString => true
  | String c s' => ((32 <=? N_of_ascii c) && (N_of_ascii c <=? 126))%N && printable_ascii s'
  end.

(** The text [json_dumps] writes for [v], whatever delimiter follows, is
    scanned back to [v] with fuel enough. *)
Definition scans_back (v : json) : Prop :=
  unique_keys v = true ->
  forall rest : string,
    at_delimiter rest = true ->
    exists f0 : nat,
      forall f : nat, (f0 <= f)%nat ->
        scan_once f (json_dumps v +:+ rest) = Scanned v rest.

(** The text of one member of a dict, as [json_dumps] writes it. *)
Definition member_text (kv : string * json) : string :=
  encode_basestring_ascii (fst kv) +:+ ": " +:+ json_dumps (snd kv).

(** [isinstance(v, dict)]. *)
Definition is_dict (v : json) : bool :=
  match v with
  | JDict _ => true
  | _ => false
  end.

(** ** [__main__.main]

    The command behind [python -m agents.adk_nextjs]: [host] and [port] as
    click hands them over, the environment as [os.environ] (after
    [load_dotenv]).  The classes of [common.types] are records of the
    fields [main] sets.  Building the task manager and the server and
    running it ([A2AServer(...)], [server.start()]) is code outside the
    repository: [serve] stands for it, and says what it raised, if
    anything. *)

Record AgentCapabilities : Type := { streaming : bool }.

Record AgentSkill : Type := {
  skill_id : string;
  skill_name : string;
  skill_description : string;
  skill_tags : list string;
  skill_examples : list string;
}.

Record AgentCard : Type := {
  card_name : string;
  card_description : string;
  card_url : string;
  card_version : string;
  defaultInputModes : list string;
  defaultOutputModes : list string;
  card_capabilities : AgentCapabilities;
  card_skills : list AgentSkill;
}.

(** [NextjsAgent.SUPPORTED_CONTENT_TYPES]. *)
Definition SUPPORTED_CONTENT_TYPES : list string := [ "text"; "text/plain" ].

(** An exception in the [try] block, with [str(e)]. *)
Inductive startup_error : Type :=
  | MissingAPIKeyError (message : string)
  | OtherException (message : string).

(** [os.getenv(name)]. *)
Definition getenv (environ : gmap string string) (name : string) : option string :=
  environ !! name.

(** [x == 'TRUE'] for [x : str | None]. *)
Definition is_TRUE (x : option string) : bool :=
  match x with
  | Some v => String.eqb v "TRUE"
  | None => false
  end.

Definition agent_card (host : string) (port : Z) : AgentCard :=
  {| card_name := "NextJS Development Agent";
     card_description :=
       "This agent assists with NextJS development, providing guidance on project setup, component design, routing configuration, state management, and frontend best practices.";
     card_url := "http://" +:+ host +:+ ":" +:+ str port +:+ "/";
     card_version := "1.0.0";
     defaultInputModes := SUPPORTED_CONTENT_TYPES;
     defaultOutputModes := SUPPORTED_CONTENT_TYPES;
     card_capabilities := {| streaming := true |};
     card_skills :=
       [ {| skill_id := "nextjs_development";
            skill_name := "NextJS Development Assistant";
            skill_description :=
              "Helps with NextJS development including project setup, component creation, routing, data fetching, and best practices implementation.";
            skill_tags := [ "nextjs"; "react"; "frontend"; "web" ];
            skill_examples :=
              [ "How do I set up a new NextJS project with TypeScript?";
                "Help me create a responsive navigation component in NextJS";
                "What is the best way to implement API routes in NextJS?";
                "Create a data fetching component using SWR in NextJS" ] |} ] |}.

(** The [try] block of [main]: the exception it ends with, if any. *)
Definition main_try (host : string) (port : Z) (environ : gmap string string)
    (serve : AgentCard -> string -> Z -> option startup_error)
    : option startup_error :=
  if negb (is_TRUE (getenv environ "GOOGLE_GENAI_USE_VERTEXAI")) then
    if falsy (getenv environ "GOOGLE_API_KEY") then
      Some (MissingAPIKeyError
              "GOOGLE_API_KEY environment variable not set and GOOGLE_GENAI_USE_VERTEXAI is not TRUE.")
    else serve (agent_card host port) host port
  else serve (agent_card host port) host port.

(** [main]: the lines given to [logger.error], and the status of [exit] when
    the process is ended. *)
Definition main (host : string) (port : Z) (environ : gmap string string)
    (serve : AgentCard -> string -> Z -> option startup_error)
    : list string * option Z :=
  match main_try host port environ serve with
  | None => ([], None)
  | Some (MissingAPIKeyError e) => ([ "Error: " +:+ e ], Some 1)
  | Some (OtherException e) =>
      ([ "An error occurred during server startup: " +:+ e ], Some 1)
  end.

(** * Properties *)

(** ** The decoder always has fuel enough *)

Local Open Scope nat_scope.

Lemma skip_ws_length (s : string) : String.length (skip_ws s) <= String.length s.
Proof.
  induction s as [|c s IH]; cbn [skip_ws String.length]; [lia|].
  destruct (is_ws c); cbn [String.length]; lia.
Qed.

Lemma strip_prefix_length (p s r : string) :
  strip_prefix p s = Some r -> String.length r + String.length p = String.length s.
Proof.
  revert s. induction p as [|a p IH]; intros s H.
  - cbn in H. injection H as ->. cbn. lia.
  - destruct s as [|b s]; cbn [strip_prefix] in H; [discriminate|].
    destruct (Ascii.eqb a b); [|discriminate].
    apply IH in H. cbn [String.length]. lia.
Qed.

Lemma scan_map_scanned {A B : Type} (f : A -> B) (x : scan A) (b : B) (rest : string) :
  scan_map f x = Scanned b rest -> exists a, x = Scanned a rest /\ b = f a.
Proof.
  destruct x as [a r| | |]; cbn; intros H; try discriminate.
  injection H as <- <-. eauto.
Qed.

Lemma scan_map_exhausted {A B : Type} (f : A -> B) (x : scan A) :
  scan_map f x = Exhausted -> x = Exhausted.
Proof. destruct x; cbn; congruence. Qed.

Lemma scanstring_length (n : nat) :
  forall (s key r : string),
    String.length s <= n -> scanstring s = Scanned key r ->
    String.length r < String.length s.
Proof.
  induction n as [|n IH]; intros s key r Hn H.
  - destruct s; [discriminate H|cbn in Hn; lia].
  - destruct s as [|c s']; [discriminate H|].
    cbn [String.length] in *. cbn [scanstring] in H.
    destruct (Ascii.eqb c dquote).
    { injection H as _ <-. lia. }
    destruct (Ascii.eqb c backslash).
    + destruct s' as [|e s'']; [discriminate H|]. cbn [String.length] in *.
      destruct (Ascii.eqb e "u").
      * destruct s'' as [|h1 [|h2 [|h3 [|h4 r0]]]]; try discriminate H.
        cbn [String.length] in *.
        destruct (hex_value h1), (hex_value h2), (hex_value h3), (hex_value h4);
          try discriminate H.
        destruct ((_ =? 0)%N && _); [|discriminate H].
        apply scan_map_scanned in H as (k & H & _).
        apply IH in H; lia.
      * destruct (unescape e); [|discriminate H].
        apply scan_map_scanned in H as (k & H & _).
        apply IH in H; lia.
    + destruct (_ <? 32)%N; [discriminate H|].
      apply scan_map_scanned in H as (k & H & _).
      apply IH in H; lia.
Qed.

Lemma scanstring_not_exhausted (n : nat) :
  forall s : string, String.length s <= n -> scanstring s <> Exhausted.
Proof.
  induction n as [|n IH]; intros s Hn H.
  - destruct s; [discriminate H|cbn in Hn; lia].
  - destruct s as [|c s']; [discriminate H|].
    cbn [String.length] in *. cbn [scanstring] in H.
    destruct (Ascii.eqb c dquote); [discriminate H|].
    destruct (Ascii.eqb c backslash).
    + destruct s' as [|e s'']; [discriminate H|]. cbn [String.length] in *.
      destruct (Ascii.eqb e "u").
      * destruct s'' as [|h1 [|h2 [|h3 [|h4 r0]]]]; try discriminate H.
        cbn [String.length] in *.
        destruct (hex_value h1), (hex_value h2), (hex_value h3), (hex_value h4);
          try discriminate H.
        destruct ((_ =? 0)%N && _); [|discriminate H].
        apply scan_map_exhausted in H. apply IH in H; [exact H|lia].
      * destruct (unescape e); [|discriminate H].
        apply scan_map_exhausted in H. apply IH in H; [exact H|lia].
    + destruct (_ <? 32)%N; [discriminate H|].
      apply scan_map_exhausted in H. apply IH in H; [exact H|lia].
Qed.

Lemma digits_length (s : string) (acc : Z) :
  String.length (snd (digits acc s)) <= String.length s.
Proof.
  revert acc. induction s as [|c s IH]; intros acc; cbn [digits]; [cbn; lia|].
  destruct (is_digit c); cbn [snd String.length]; [|lia].
  specialize (IH (10 * acc + digit_value c)%Z). lia.
Qed.

Lemma match_number_length (s : string) (v : json) (r : string) :
  match_number s = Some (Scanned v r) -> String.length r < String.length s.
Proof.
  unfold match_number.
  destruct (strip_prefix "-" s) as [s1|] eqn:Hneg.
  - apply strip_prefix_length in Hneg. cbn [String.length] in Hneg.
    destruct s1 as [|c r0]; [discriminate|]. cbn [String.length] in Hneg.
    destruct (Ascii.eqb c "0").
    + destruct (float_tail r0); intros H; [discriminate H|].
      injection H as _ <-. lia.
    + destruct (is_digit c); [|discriminate].
      pose proof (digits_length r0 (digit_value c)) as Hd.
      destruct (digits (digit_value c) r0) as [n r']. cbn [snd] in Hd.
      destruct (float_tail r'); intros H; [discriminate H|].
      injection H as _ <-. lia.
  - destruct s as [|c r0]; [discriminate|]. cbn [String.length].
    destruct (Ascii.eqb c "0").
    + destruct (float_tail r0); intros H; [discriminate H|].
      injection H as _ <-. lia.
    + destruct (is_digit c); [|discriminate].
      pose proof (digits_length r0 (digit_value c)) as Hd.
      destruct (digits (digit_value c) r0) as [n r']. cbn [snd] in Hd.
      destruct (float_tail r'); intros H; [discriminate H|].
      injection H as _ <-. lia.
Qed.

Lemma match_number_not_exhausted (s : string) : match_number s <> Some Exhausted.
Proof.
  unfold match_number.
  destruct (strip_prefix "-" s) as [s1|].
  - destruct s1 as [|c r0]; [discriminate|].
    destruct (Ascii.eqb c "0").
    + destruct (float_tail r0); discriminate.
    + destruct (is_digit c); [|discriminate].
      destruct (digits (digit_value c) r0) as [n r'].
      destruct (float_tail r'); discriminate.
  - destruct s as [|c r0]; [discriminate|].
    destruct (Ascii.eqb c "0").
    + destruct (float_tail r0); discriminate.
    + destruct (is_digit c); [|discriminate].
      destruct (digits (digit_value c) r0) as [n r'].
      destruct (float_tail r'); discriminate.
Qed.

Lemma scan_constant_length (s : string) (v : json) (r : string) :
  scan_constant s = Scanned v r -> String.length r < String.length s.
Proof.
  unfold scan_constant.
  destruct (strip_prefix "null" s) eqn:H1.
  { apply strip_prefix_length in H1. cbn [String.length] in H1.
    intros H. injection H as _ <-. lia. }
  destruct (strip_prefix "true" s) eqn:H2.
  { apply strip_prefix_length in H2. cbn [String.length] in H2.
    intros H. injection H as _ <-. lia. }
  destruct (strip_prefix "false" s) eqn:H3.
  { apply strip_prefix_length in H3. cbn [String.length] in H3.
    intros H. injection H as _ <-. lia. }
  destruct (match_number s) as [x|] eqn:H4.
  { intros ->. apply match_number_length in H4. exact H4. }
  destruct (strip_prefix "NaN" s), (strip_prefix "Infinity" s),
    (strip_prefix "-Infinity" s); discriminate.
Qed.

Lemma scan_constant_not_exhausted (s : string) : scan_constant s <> Exhausted.
Proof.
  unfold scan_constant.
  destruct (strip_prefix "null" s); [discriminate|].
  destruct (strip_prefix "true" s); [discriminate|].
  destruct (strip_prefix "false" s); [discriminate|].
  destruct (match_number s) as [x|] eqn:H4.
  { intros ->. exact (match_number_not_exhausted _ H4). }
  destruct (strip_prefix "NaN" s), (strip_prefix "Infinity" s),
    (strip_prefix "-Infinity" s); discriminate.
Qed.

Lemma scan_once_S (fuel : nat) (s : string) :
  scan_once (S fuel) s =
  match s with
  | EmptyString => Malformed
  | String c s' =>
      if Ascii.eqb c dquote then scan_map JStr (scanstring s')
      else if Ascii.eqb c "{" then
        match strip_prefix "}" (skip_ws s') with
        | Some r => Scanned (JDict []) r
        | None =>
            match strip_prefix (String dquote "") (skip_ws s') with
            | Some r => object_loop fuel [] r
            | None => Malformed
            end
        end
      else if Ascii.eqb c "[" then
        match strip_prefix "]" (skip_ws s') with
        | Some r => Scanned (JList []) r
        | None => array_loop fuel [] (skip_ws s')
        end
      else scan_constant s
  end.
Proof. reflexivity. Qed.

Lemma array_loop_S (fuel : nat) (values : list json) (s : string) :
  array_loop (S fuel) values s =
  match scan_once fuel s with
  | Scanned value r =>
      match strip_prefix "]" (skip_ws r) with
      | Some r' => Scanned (JList (rev (value :: values))) r'
      | None =>
          match strip_prefix "," (skip_ws r) with
          | Some r' => array_loop fuel (value :: values) (skip_ws r')
          | None => Malformed
          end
      end
  | Malformed => Malformed
  | NotModelled => NotModelled
  | Exhausted => Exhausted
  end.
Proof. reflexivity. Qed.

Lemma object_loop_S (fuel : nat) (pairs : list (string * json)) (s : string) :
  object_loop (S fuel) pairs s =
  match scanstring s with
  | Scanned key r =>
      match strip_prefix ":" (skip_ws r) with
      | Some r1 =>
          match scan_once fuel (skip_ws r1) with
          | Scanned value r2 =>
              match strip_prefix "}" (skip_ws r2) with
              | Some r3 =>
                  Scanned (JDict (dict_of_pairs (rev ((key, value) :: pairs)))) r3
              | None =>
                  match strip_prefix "," (skip_ws r2) with
                  | Some r3 =>
                      match strip_prefix (String dquote "") (skip_ws r3) with
                      | Some r4 => object_loop fuel ((key, value) :: pairs) r4
                      | None => Malformed
                      end
                  | None => Malformed
                  end
              end
          | Malformed => Malformed
          | NotModelled => NotModelled
          | Exhausted => Exhausted
          end
      | None => Malformed
      end
  | Malformed => Malformed
  | NotModelled => NotModelled
  | Exhausted => Exhausted
  end.
Proof. reflexivity. Qed.

(** A one-character prefix taken after whitespace: what is left is shorter. *)
Lemma strip_after_ws (c : ascii) (s r : string) :
  strip_prefix (String c "") (skip_ws s) = Some r ->
  String.length r < String.length s.
Proof.
  intros H. apply strip_prefix_length in H. cbn [String.length] in H.
  pose proof (skip_ws_length s). lia.
Qed.

(** Every scanned value uses up at least one character. *)
Lemma scan_length (fuel : nat) :
  (forall s v r, scan_once fuel s = Scanned v r ->
                 String.length r < String.length s)
  /\ (forall values s v r, array_loop fuel values s = Scanned v r ->
                           String.length r < String.length s)
  /\ (forall pairs s v r, object_loop fuel pairs s = Scanned v r ->
                          String.length r < String.length s).
Proof.
  induction fuel as [|fuel (IHs & IHa & IHo)].
  { repeat split; intros; discriminate. }
  split; [|split].
  - intros s v r. rewrite scan_once_S.
    destruct s as [|c s']; [discriminate|]. cbn [String.length].
    destruct (Ascii.eqb c dquote).
    { intros H. apply scan_map_scanned in H as (k & H & _).
      apply (scanstring_length _ _ _ _ (le_n _)) in H. lia. }
    destruct (Ascii.eqb c "{").
    { destruct (strip_prefix "}" (skip_ws s')) as [r0|] eqn:H1.
      { intros H. injection H as _ <-. apply strip_after_ws in H1. lia. }
      destruct (strip_prefix (String dquote "") (skip_ws s')) as [r0|] eqn:H2;
        [|discriminate].
      intros H. apply IHo in H. apply strip_after_ws in H2. lia. }
    destruct (Ascii.eqb c "[").
    { destruct (strip_prefix "]" (skip_ws s')) as [r0|] eqn:H1.
      { intros H. injection H as _ <-. apply strip_after_ws in H1. lia. }
      intros H. apply IHa in H. pose proof (skip_ws_length s'). lia. }
    intros H. apply scan_constant_length in H. cbn [String.length] in H. exact H.
  - intros values s v r. rewrite array_loop_S.
    destruct (scan_once fuel s) as [value r0| | |] eqn:Hv; try discriminate.
    apply IHs in Hv.
    destruct (strip_prefix "]" (skip_ws r0)) as [r1|] eqn:H1.
    { intros H. injection H as _ <-. apply strip_after_ws in H1. lia. }
    destruct (strip_prefix "," (skip_ws r0)) as [r1|] eqn:H2; [|discriminate].
    intros H. apply IHa in H. apply strip_after_ws in H2.
    pose proof (skip_ws_length r1). lia.
  - intros pairs s v r. rewrite object_loop_S.
    destruct (scanstring s) as [key r0| | |] eqn:Hk; try discriminate.
    apply (scanstring_length _ _ _ _ (le_n _)) in Hk.
    destruct (strip_prefix ":" (skip_ws r0)) as [r1|] eqn:H1; [|discriminate].
    apply strip_after_ws in H1.
    destruct (scan_once fuel (skip_ws r1)) as [value r2| | |] eqn:Hv; try discriminate.
    apply IHs in Hv. pose proof (skip_ws_length r1) as Hws.
    destruct (strip_prefix "}" (skip_ws r2)) as [r3|] eqn:H2.
    { intros H. injection H as _ <-. apply strip_after_ws in H2. lia. }
    destruct (strip_prefix "," (skip_ws r2)) as [r3|] eqn:H3; [|discriminate].
    apply strip_after_ws in H3.
    destruct (strip_prefix (String dquote "") (skip_ws r3)) as [r4|] eqn:H4;
      [|discriminate].
    apply strip_after_ws in H4.
    intros H. apply IHo in H. lia.
Qed.

(** With fuel for twice the length of the text, no scan runs out. *)
Lemma scan_fuel (fuel : nat) :
  (forall s, 2 * String.length s + 1 <= fuel -> scan_once fuel s <> Exhausted)
  /\ (forall values s, 2 * String.length s + 2 <= fuel ->
                       array_loop fuel values s <> Exhausted)
  /\ (forall pairs s, 2 * String.length s + 1 <= fuel ->
                      object_loop fuel pairs s <> Exhausted).
Proof.
  induction fuel as [|fuel (IHs & IHa & IHo)].
  { repeat split; intros; lia. }
  split; [|split].
  - intros s Hf. rewrite scan_once_S.
    destruct s as [|c s']; [discriminate|]. cbn [String.length] in Hf.
    destruct (Ascii.eqb c dquote).
    { intros H. apply scan_map_exhausted in H.
      exact (scanstring_not_exhausted _ _ (le_n _) H). }
    destruct (Ascii.eqb c "{").
    { destruct (strip_prefix "}" (skip_ws s')); [discriminate|].
      destruct (strip_prefix (String dquote "") (skip_ws s')) as [r0|] eqn:H2;
        [|discriminate].
      apply strip_after_ws in H2. apply IHo. lia. }
    destruct (Ascii.eqb c "[").
    { destruct (strip_prefix "]" (skip_ws s')); [discriminate|].
      pose proof (skip_ws_length s'). apply IHa. lia. }
    apply scan_constant_not_exhausted.
  - intros values s Hf. rewrite array_loop_S.
    destruct (scan_once fuel s) as [value r0| | |] eqn:Hv; try discriminate.
    + apply (proj1 (scan_length fuel)) in Hv.
      destruct (strip_prefix "]" (skip_ws r0)); [discriminate|].
      destruct (strip_prefix "," (skip_ws r0)) as [r1|] eqn:H2; [|discriminate].
      apply strip_after_ws in H2. pose proof (skip_ws_length r1).
      apply IHa. lia.
    + exfalso. apply (IHs s); [lia|exact Hv].
  - intros pairs s Hf. rewrite object_loop_S.
    destruct (scanstring s) as [key r0| | |] eqn:Hk; try discriminate.
    + apply (scanstring_length _ _ _ _ (le_n _)) in Hk.
      destruct (strip_prefix ":" (skip_ws r0)) as [r1|] eqn:H1; [|discriminate].
      apply strip_after_ws in H1. pose proof (skip_ws_length r1).
      destruct (scan_once fuel (skip_ws r1)) as [value r2| | |] eqn:Hv;
        try discriminate.
      * apply (proj1 (scan_length fuel)) in Hv.
        destruct (strip_prefix "}" (skip_ws r2)); [discriminate|].
        destruct (strip_prefix "," (skip_ws r2)) as [r3|] eqn:H3; [|discriminate].
        apply strip_after_ws in H3.
        destruct (strip_prefix (String dquote "") (skip_ws r3)) as [r4|] eqn:H4;
          [|discriminate].
        apply strip_after_ws in H4. apply IHo. lia.
      * exfalso. apply (IHs (skip_ws r1)); [lia|exact Hv].
    + exfalso. exact (scanstring_not_exhausted _ _ (le_n _) Hk).
Qed.

(** [json_loads] decides every text it is given with the fuel it takes. *)
Lemma json_loads_fuel (s : string) :
  scan_once (2 * String.length s + 2) (skip_ws s) <> Exhausted.
Proof.
  apply (proj1 (scan_fuel _)). pose proof (skip_ws_length s). lia.
Qed.

(** So [json_loads] answers [Unmodelled] only for a text outside the model. *)
Lemma json_loads_unmodelled (s : string) :
  json_loads s = Unmodelled ->
  scan_once (2 * String.length s + 2) (skip_ws s) = NotModelled.
Proof.
  unfold json_loads, decode. pose proof (json_loads_fuel s) as Hfuel.
  destruct (scan_once (2 * String.length s + 2) (skip_ws s)) as [v r| | |];
    try congruence.
  destruct (skip_ws r); discriminate.
Qed.

Local Close Scope nat_scope.

(** ** The random draw and the identifier built from it *)

Lemma randint_range (a b : Z) (w : world) :
  a <= b -> a <= fst (randint a b w) <= b.
Proof.
  intros Hab. cbn [randint fst].
  pose proof (Z.mod_pos_bound (rng w 0%nat) (b - a + 1)). lia.
Qed.

(** Every number of the range is drawn by some generator. *)
Lemma randint_onto (a b n : Z) (reg : gset string) :
  a <= n <= b -> fst (randint a b (World reg (fun _ => n - a))) = n.
Proof.
  intros Hn. cbn [randint fst rng].
  rewrite Z.mod_small by lia. lia.
Qed.

Lemma randint_request_ids (a b : Z) (w : world) :
  request_ids (snd (randint a b w)) = request_ids w.
Proof. reflexivity. Qed.

Lemma str_inj (n m : Z) : str n = str m -> n = m.
Proof. unfold str. apply (inj pretty). Qed.

Lemma id_of_inj (n m : Z) : id_of n = id_of m -> n = m.
Proof.
  unfold id_of. intros H. apply str_inj.
  exact (inj (String.app "request_id_") _ _ H).
Qed.

Lemma create_request_form_unfold (date amount purpose : option string) (w : world) :
  create_request_form date amount purpose w =
  (Return
     [ ("request_id", JStr (id_of (fst (randint 1000000 9999999 w))));
       ("date", JStr (or_placeholder "<transaction date>" date));
       ("amount", JStr (or_placeholder "<transaction dollar amount>" amount));
       ("purpose",
        JStr (or_placeholder
                "<business justification/purpose of the transaction>" purpose)) ],
   registry_add (id_of (fst (randint 1000000 9999999 w)))
                (snd (randint 1000000 9999999 w))).
Proof. reflexivity. Qed.

Lemma create_request_form_id (date amount purpose : option string) (w : world) :
  returned_id (fst (create_request_form date amount purpose w)) =
  Some (id_of (fst (randint 1000000 9999999 w))).
Proof. reflexivity. Qed.

Lemma create_request_form_registry (date amount purpose : option string) (w : world) :
  request_ids (snd (create_request_form date amount purpose w)) =
  {[ id_of (fst (randint 1000000 9999999 w)) ]} ∪ request_ids w.
Proof. reflexivity. Qed.

Lemma create_request_form_rng (date amount purpose : option string) (w : world) :
  rng (snd (create_request_form date amount purpose w)) = fun i => rng w (S i).
Proof. reflexivity. Qed.

(** [draws] reads the generator only. *)
Lemma draws_ext (n : nat) (w w' : world) :
  (forall i, rng w i = rng w' i) -> draws n w = draws n w'.
Proof.
  revert w w'. induction n as [|n IH]; intros w w' Hrng; [reflexivity|].
  cbn [draws randint]. rewrite (Hrng 0%nat). f_equal.
  apply IH. intros i. cbn [rng]. apply Hrng.
Qed.

Lemma create_all_cons (a : request_args) (calls : list request_args) (w : world) :
  create_all (a :: calls) w =
  (fst (create_request_form (arg_date a) (arg_amount a) (arg_purpose a) w)
     :: fst (create_all calls
               (snd (create_request_form (arg_date a) (arg_amount a) (arg_purpose a) w))),
   snd (create_all calls
          (snd (create_request_form (arg_date a) (arg_amount a) (arg_purpose a) w)))).
Proof.
  cbn [create_all].
  destruct (create_request_form _ _ _ w) as [r w1]. cbn [fst snd].
  destruct (create_all calls w1) as [rs w2]. reflexivity.
Qed.

(** The identifiers a run returns are those of the numbers drawn. *)
Lemma create_all_ids (calls : list request_args) (w : world) :
  map returned_id (fst (create_all calls w)) =
  map (fun n => Some (id_of n)) (draws (List.length calls) w).
Proof.
  revert w. induction calls as [|a calls IH]; intros w; [reflexivity|].
  rewrite create_all_cons. cbn [fst map List.length draws].
  rewrite create_request_form_id.
  destruct (randint 1000000 9999999 w) as [x w'] eqn:Hr. cbn [map fst].
  f_equal. rewrite IH. f_equal.
  apply draws_ext. intros i. rewrite create_request_form_rng.
  replace w' with (snd (randint 1000000 9999999 w)) by (rewrite Hr; reflexivity).
  reflexivity.
Qed.

(** The registry after a run: what it held before and the identifiers of the
    numbers drawn. *)
Lemma create_all_registry (calls : list request_args) (w : world) :
  request_ids (snd (create_all calls w)) =
  list_to_set (map id_of (draws (List.length calls) w)) ∪ request_ids w.
Proof.
  revert w. induction calls as [|a calls IH]; intros w.
  - cbn. set_solver.
  - rewrite create_all_cons. cbn [snd List.length draws].
    rewrite IH, create_request_form_registry.
    destruct (randint 1000000 9999999 w) as [x w'] eqn:Hr. cbn [map fst list_to_set].
    rewrite (draws_ext _ _ w').
    + set_solver.
    + intros i. rewrite create_request_form_rng.
      replace w' with (snd (randint 1000000 9999999 w)) by (rewrite Hr; reflexivity).
      reflexivity.
Qed.

Lemma draws_range (n : nat) (w : world) :
  Forall (fun x => 1000000 <= x <= 9999999) (draws n w).
Proof.
  revert w. induction n as [|n IH]; intros w; cbn [draws]; [constructor|].
  destruct (randint 1000000 9999999 w) as [x w'] eqn:Hr.
  constructor; [|apply IH].
  replace x with (fst (randint 1000000 9999999 w)) by (rewrite Hr; reflexivity).
  apply randint_range. lia.
Qed.

(** ** The registry: minting and approval *)

(** C1 (as amended).  [create_request_form] records the identifier it returns
    in the registry before returning it, and all identifiers of a run are in
    the registry at its end; the identifiers returned by [N] calls in a row
    are pairwise distinct exactly when the [N] numbers drawn by
    [random.randint] are: nothing compares a new identifier with the
    registry. *)
Theorem create_request_form_distinct_iff_draws (calls : list request_args) (w : world) :
  (forall date amount purpose : option string,
      exists i, returned_id (fst (create_request_form date amount purpose w)) = Some i
                /\ i ∈ request_ids (snd (create_request_form date amount purpose w)))
  /\ Forall (fun o => exists i, o = Some i /\ i ∈ request_ids (snd (create_all calls w)))
            (map returned_id (fst (create_all calls w)))
  /\ (NoDup (map returned_id (fst (create_all calls w)))
      <-> NoDup (draws (List.length calls) w)).
Proof.
  split; [|split].
  - intros date amount purpose. eexists. split.
    + apply create_request_form_id.
    + rewrite create_request_form_registry. set_solver.
  - rewrite create_all_ids, create_all_registry.
    apply Forall_forall. intros o Ho.
    apply list_elem_of_In, in_map_iff in Ho as (n & <- & Hn).
    exists (id_of n). split; [reflexivity|].
    apply elem_of_union_l, elem_of_list_to_set, list_elem_of_In, in_map, Hn.
  - rewrite create_all_ids.
    change (map ?f ?l) with (f <$> l).
    apply NoDup_fmap. intros n m H. apply id_of_inj. congruence.
Qed.

(** C1, as stated, fails: two calls that draw the same number return the same
    identifier. *)
Lemma create_request_form_collision :
  map returned_id
    (fst (create_all
            [ {| arg_date := None; arg_amount := None; arg_purpose := None |};
              {| arg_date := None; arg_amount := None; arg_purpose := None |} ]
            (initial (fun i => 9000000 * Z.of_nat i + 234567))))
  = [ Some "request_id_1234567"; Some "request_id_1234567" ].
Proof. vm_compute. reflexivity. Qed.

Lemma reimburse_known (request_id : string) (w : world) :
  request_id ∈ request_ids w ->
  reimburse request_id w =
  (Return [ ("request_id", JStr request_id); ("status", JStr "approved") ], w).
Proof.
  intros Hin. unfold reimburse.
  destruct (decide (request_id ∉ request_ids w)) as [Hn|_]; [|reflexivity].
  destruct (Hn Hin).
Qed.

Lemma reimburse_unknown (request_id : string) (w : world) :
  request_id ∉ request_ids w ->
  reimburse request_id w =
  (Return [ ("request_id", JStr request_id);
            ("status", JStr "Error: Invalid request_id.") ], w).
Proof.
  intros Hn. unfold reimburse.
  destruct (decide (request_id ∉ request_ids w)) as [_|Hnn]; [reflexivity|].
  destruct (Hnn Hn).
Qed.

(** C2.  For an identifier of the registry, [reimburse] returns
    [{request_id, "approved"}] and leaves the module state as it was; called
    any number of times in a row, it returns that same value every time. *)
Theorem reimburse_approved_idempotent (request_id : string) (w : world) (n : nat) :
  request_id ∈ request_ids w ->
  reimburse request_id w =
    (Return [ ("request_id", JStr request_id); ("status", JStr "approved") ], w)
  /\ reimburse_times n request_id w =
       (repeat (Return [ ("request_id", JStr request_id); ("status", JStr "approved") ]) n,
        w).
Proof.
  intros Hin. split; [apply reimburse_known, Hin|].
  induction n as [|n IH]; [reflexivity|].
  cbn [reimburse_times repeat].
  rewrite (reimburse_known _ _ Hin), IH. reflexivity.
Qed.

Lemma reimburse_approved_idempotent_witness :
  let w := snd (create_request_form None (Some "100") None (initial (fun _ => 0))) in
  reimburse "request_id_1000000" w =
    (Return [ ("request_id", JStr "request_id_1000000"); ("status", JStr "approved") ], w)
  /\ reimburse_times 3 "request_id_1000000" w =
       (repeat (Return [ ("request_id", JStr "request_id_1000000");
                         ("status", JStr "approved") ]) 3,
        w).
Proof.
  apply (reimburse_approved_idempotent "request_id_1000000").
  rewrite create_request_form_registry.
  apply elem_of_union_l, elem_of_singleton. vm_compute. reflexivity.
Defined.

(** C3.  For an identifier that is not in the registry, whatever the registry
    holds, [reimburse] returns the value
    [{request_id, "Error: Invalid request_id."}]: a returned result, not an
    exception, whose status begins with ["Error"]; the module state is as it
    was. *)
Theorem reimburse_unknown_error (request_id : string) (w : world) :
  request_id ∉ request_ids w ->
  reimburse request_id w =
    (Return [ ("request_id", JStr request_id);
              ("status", JStr "Error: Invalid request_id.") ], w)
  /\ exists status,
       returned_status (fst (reimburse request_id w)) = Some status
       /\ String.prefix "Error" status = true.
Proof.
  intros Hn. rewrite (reimburse_unknown _ _ Hn). split; [reflexivity|].
  exists "Error: Invalid request_id.". split; reflexivity.
Qed.

Lemma reimburse_unknown_error_witness :
  let w := snd (create_request_form None None None (initial (fun _ => 0))) in
  reimburse "nonexistent" w =
    (Return [ ("request_id", JStr "nonexistent");
              ("status", JStr "Error: Invalid request_id.") ], w)
  /\ exists status,
       returned_status (fst (reimburse "nonexistent" w)) = Some status
       /\ String.prefix "Error" status = true.
Proof.
  apply (reimburse_unknown_error "nonexistent").
  rewrite create_request_form_registry. cbn [initial request_ids].
  intros H. apply elem_of_union in H as [H|H].
  - apply elem_of_singleton in H. vm_compute in H. discriminate H.
  - exact (not_elem_of_empty _ H).
Defined.

Lemma size_all_ids : Z.of_nat (size all_ids) = 9000000.
Proof.
  unfold all_ids. rewrite size_list_to_set.
  - rewrite length_fmap, length_seqZ. apply Z2Nat.id. lia.
  - apply NoDup_fmap_2; [|apply NoDup_seqZ].
    intros n m H. apply id_of_inj, H.
Qed.

Lemma drawn_ids_subseteq (n : nat) (w : world) :
  list_to_set (map id_of (draws n w)) ⊆ all_ids.
Proof.
  intros i Hi. apply elem_of_list_to_set, list_elem_of_In, in_map_iff in Hi
    as (x & <- & Hx).
  pose proof (draws_range n w) as Hr.
  rewrite List.Forall_forall in Hr. specialize (Hr x Hx).
  unfold all_ids. apply elem_of_list_to_set, list_elem_of_fmap.
  exists x. split; [reflexivity|]. apply elem_of_seqZ. lia.
Qed.

(** C9.  The identifier [create_request_form] returns is ["request_id_"]
    followed by the decimal numeral of an integer from 1000000 to 9999999;
    hence a process, whose registry starts empty, never holds more than
    9000000 identifiers, however many calls it makes. *)
Theorem create_request_form_id_range
    (date amount purpose : option string) (w : world)
    (calls : list request_args) (g : nat -> Z) :
  (exists n : Z,
      1000000 <= n <= 9999999
      /\ returned_id (fst (create_request_form date amount purpose w))
         = Some ("request_id_" +:+ str n))
  /\ Z.of_nat (size (request_ids (snd (create_all calls (initial g))))) <= 9000000.
Proof.
  split.
  - exists (fst (randint 1000000 9999999 w)). split.
    + apply randint_range. lia.
    + apply create_request_form_id.
  - pose proof size_all_ids as Hsize.
    enough (size (request_ids (snd (create_all calls (initial g)))) <= size all_ids)%nat
      by lia.
    apply subseteq_size. rewrite create_all_registry.
    intros i Hi. apply elem_of_union in Hi as [Hi|Hi].
    + exact (drawn_ids_subseteq _ _ i Hi).
    + destruct (not_elem_of_empty (C:=gset string) i Hi).
Qed.

(** The numerals at the two ends of the range. *)
Example str_lowest : str 1000000 = "1000000".
Proof. vm_compute. reflexivity. Qed.

Example str_highest : str 9999999 = "9999999".
Proof. vm_compute. reflexivity. Qed.

(** ** Placeholders *)

Lemma or_placeholder_falsy (placeholder : string) (s : option string) :
  falsy s = true -> or_placeholder placeholder s = placeholder.
Proof. destruct s as [v|]; cbn; intros H; [rewrite H|]; reflexivity. Qed.

Lemma or_placeholder_given (placeholder v : string) :
  v <> "" -> or_placeholder placeholder (Some v) = v.
Proof.
  intros Hv. cbn. destruct (String.eqb_spec v ""); [contradiction|reflexivity].
Qed.

Lemma or_placeholder_field_value (placeholder : string) (s : option string) :
  or_placeholder placeholder s = field_value placeholder s.
Proof. destruct s as [[|c v]|]; reflexivity. Qed.

(** C5.  In the snapshot [create_request_form] returns, and so in the
    [form_data] of the descriptor [return_form] builds from it, each of
    [date], [amount] and [purpose] that was [None] or empty holds its
    placeholder, a non-empty text, and each one given non-empty holds the
    given text. *)
Theorem create_request_form_placeholders
    (date amount purpose : option string) (w : world)
    (tool_context : ToolContext) (instructions : option string) :
  exists (request_id : string) (descriptor : dict),
    let snapshot :=
      [ ("request_id", JStr request_id);
        ("date", JStr (field_value "<transaction date>" date));
        ("amount", JStr (field_value "<transaction dollar amount>" amount));
        ("purpose",
         JStr (field_value "<business justification/purpose of the transaction>"
                 purpose)) ] in
    fst (create_request_form date amount purpose w) = Return snapshot
    /\ fst (return_form (ArgDict snapshot) tool_context instructions)
       = Return (json_dumps (JDict descriptor))
    /\ getitem "form_data" descriptor = Some (JDict snapshot)
    /\ "<transaction date>" <> ""
    /\ "<transaction dollar amount>" <> ""
    /\ "<business justification/purpose of the transaction>" <> "".
Proof.
  eexists. eexists. cbv zeta.
  rewrite create_request_form_unfold, !or_placeholder_field_value. cbn [fst].
  split; [reflexivity|].
  split; [reflexivity|].
  split; [reflexivity|].
  repeat split; discriminate.
Qed.

(** The instance the specification gives: [date] empty, [amount] ["100"],
    [purpose] [None]. *)
Example create_request_form_placeholders_instance :
  fst (create_request_form (Some "") (Some "100") None (initial (fun _ => 0)))
  = Return
      [ ("request_id", JStr "request_id_1000000");
        ("date", JStr "<transaction date>");
        ("amount", JStr "100");
        ("purpose", JStr "<business justification/purpose of the transaction>") ].
Proof. vm_compute. reflexivity. Qed.

(** The same instance seen in the text [return_form] returns for that
    snapshot. *)
Example return_form_placeholders_instance :
  match fst (create_request_form (Some "") (Some "100") None (initial (fun _ => 0))) with
  | Return snapshot =>
      match fst (return_form (ArgDict snapshot)
                   {| actions := {| skip_summarization := None; escalate := None;
                                    other_actions := ∅ |};
                      other_attributes := ∅ |}
                   None) with
      | Return text =>
          exists descriptor form_data : dict,
            json_loads text = Return (JDict descriptor)
            /\ getitem "form_data" descriptor = Some (JDict form_data)
            /\ getitem "date" form_data = Some (JStr "<transaction date>")
            /\ getitem "amount" form_data = Some (JStr "100")
            /\ getitem "purpose" form_data
               = Some (JStr "<business justification/purpose of the transaction>")
      | _ => False
      end
  | _ => False
  end.
Proof.
  vm_compute. eexists. eexists.
  split; [reflexivity|]. repeat split; reflexivity.
Qed.

(** ** The form builder *)

Lemma return_form_loaded (form_request : form_request_arg) (tool_context : ToolContext)
    (instructions : option string) (v : json) :
  load_form_request form_request = Return v ->
  return_form form_request tool_context instructions =
  match keys_method v with
  | Return required =>
      (Return (json_dumps (form_dict required v instructions)), escalated tool_context)
  | Raise e => (Raise e, escalated tool_context)
  | Unmodelled => (Unmodelled, escalated tool_context)
  end.
Proof.
  intros Hl. unfold return_form. rewrite Hl.
  destruct (keys_method v); reflexivity.
Qed.

Lemma snapshot_of_loaded (form_request : form_request_arg) (d : dict) :
  snapshot_of form_request = Some d ->
  load_form_request form_request = Return (JDict d).
Proof.
  unfold snapshot_of.
  destruct (load_form_request form_request) as [[]| |]; congruence.
Qed.

Lemma return_form_snapshot (form_request : form_request_arg) (tool_context : ToolContext)
    (instructions : option string) (d : dict) :
  snapshot_of form_request = Some d ->
  return_form form_request tool_context instructions =
  (Return (json_dumps (form_dict (keys d) (JDict d) instructions)),
   escalated tool_context).
Proof.
  intros Hs. apply snapshot_of_loaded in Hs.
  rewrite (return_form_loaded _ _ _ _ Hs). reflexivity.
Qed.

(** C4.  The [required] list of the descriptor [return_form] serialises is
    the list of the keys of the snapshot it was given, in the snapshot's
    order, whichever keys those are. *)
Theorem return_form_required_is_keys (form_request : form_request_arg)
    (tool_context : ToolContext) (instructions : option string) (d : dict) :
  snapshot_of form_request = Some d ->
  exists descriptor form : dict,
    fst (return_form form_request tool_context instructions)
    = Return (json_dumps (JDict descriptor))
    /\ getitem "form" descriptor = Some (JDict form)
    /\ getitem "required" form = Some (JList (map JStr (keys d))).
Proof.
  intros Hs. rewrite (return_form_snapshot _ _ _ _ Hs).
  eexists. eexists. split; [reflexivity|]. split; reflexivity.
Qed.

Lemma return_form_required_is_keys_witness :
  exists descriptor form : dict,
    fst (return_form (ArgDict [ ("date", JStr "2024-05-01"); ("amount", JStr "100") ])
           {| actions := {| skip_summarization := None; escalate := None;
                            other_actions := ∅ |};
              other_attributes := ∅ |}
           None)
    = Return (json_dumps (JDict descriptor))
    /\ getitem "form" descriptor = Some (JDict form)
    /\ getitem "required" form = Some (JList [ JStr "date"; JStr "amount" ]).
Proof.
  apply (return_form_required_is_keys
           (ArgDict [ ("date", JStr "2024-05-01"); ("amount", JStr "100") ])
           _ None [ ("date", JStr "2024-05-01"); ("amount", JStr "100") ]).
  reflexivity.
Defined.

(** With [purpose] added to the snapshot, [required] names all three. *)
Example return_form_required_three (tool_context : ToolContext) :
  exists descriptor form : dict,
    fst (return_form
           (ArgDict [ ("date", JStr "2024-05-01"); ("amount", JStr "100");
                      ("purpose", JStr "taxi") ])
           tool_context None)
    = Return (json_dumps (JDict descriptor))
    /\ getitem "form" descriptor = Some (JDict form)
    /\ getitem "required" form
       = Some (JList [ JStr "date"; JStr "amount"; JStr "purpose" ]).
Proof. eexists. eexists. split; [reflexivity|]. split; reflexivity. Qed.

(** C6 (as amended).  A [str] argument is decoded by [json.loads] before
    anything reads it: the call then goes on as for the decoded value.  When
    decoding fails, the [JSONDecodeError] leaves [return_form] as an
    exception: nothing is returned, and the context is as it was. *)
Theorem return_form_str (s : string) (tool_context : ToolContext)
    (instructions : option string) :
  return_form (ArgStr s) tool_context instructions =
  match json_loads s with
  | Return (JDict d) => return_form (ArgDict d) tool_context instructions
  | Return _ => (Raise AttributeError, escalated tool_context)
  | Raise e => (Raise e, tool_context)
  | Unmodelled => (Unmodelled, tool_context)
  end.
Proof.
  unfold return_form. cbn [load_form_request].
  destruct (json_loads s) as [[]| |]; reflexivity.
Qed.

(** C6, as stated, fails: a text that is not JSON (here a [dict] written with
    single quotes) ends the call with an exception, not with an error
    result. *)
Lemma return_form_decode_error_raises :
  return_form (ArgStr "{'date': '2024-05-01'}")
    {| actions := {| skip_summarization := None; escalate := None;
                     other_actions := ∅ |};
       other_attributes := ∅ |}
    None
  = (Raise JSONDecodeError,
     {| actions := {| skip_summarization := None; escalate := None;
                      other_actions := ∅ |};
        other_attributes := ∅ |}).
Proof. vm_compute. reflexivity. Qed.

(** C7 (as amended).  Once the argument is a value ([json.loads] did not
    raise), [return_form] sets [skip_summarization] and [escalate] of the
    context's [actions] to [True] and changes nothing else of the context,
    also when it raises afterwards. *)
Theorem return_form_escalates (form_request : form_request_arg)
    (tool_context : ToolContext) (instructions : option string) (v : json) :
  load_form_request form_request = Return v ->
  skip_summarization (actions (snd (return_form form_request tool_context instructions)))
  = Some true
  /\ escalate (actions (snd (return_form form_request tool_context instructions)))
     = Some true
  /\ other_actions (actions (snd (return_form form_request tool_context instructions)))
     = other_actions (actions tool_context)
  /\ other_attributes (snd (return_form form_request tool_context instructions))
     = other_attributes tool_context.
Proof.
  intros Hl. rewrite (return_form_loaded _ _ _ _ Hl).
  destruct (keys_method v); repeat split; reflexivity.
Qed.

Lemma return_form_escalates_witness :
  let form_request :=
    ArgDict [ ("request_id", JStr "request_id_1234567"); ("date", JStr "<transaction date>") ] in
  let tool_context :=
    {| actions := {| skip_summarization := None; escalate := Some false;
                     other_actions := {[ "transfer_to_agent" := JNull ]} |};
       other_attributes := {[ "function_call_id" := JStr "call-1" ]} |} in
  skip_summarization (actions (snd (return_form form_request tool_context None)))
  = Some true
  /\ escalate (actions (snd (return_form form_request tool_context None)))
     = Some true
  /\ other_actions (actions (snd (return_form form_request tool_context None)))
     = other_actions (actions tool_context)
  /\ other_attributes (snd (return_form form_request tool_context None))
     = other_attributes tool_context.
Proof.
  cbv zeta.
  apply (return_form_escalates _ _ None
           (JDict [ ("request_id", JStr "request_id_1234567");
                    ("date", JStr "<transaction date>") ])).
  reflexivity.
Defined.

(** C7, as stated, fails: when [json.loads] raises, the call ends before the
    two writes and both flags are as they were. *)
Lemma return_form_decode_error_no_escalation :
  actions
    (snd (return_form (ArgStr "{")
            {| actions := {| skip_summarization := None; escalate := Some false;
                             other_actions := ∅ |};
               other_attributes := ∅ |}
            None))
  = {| skip_summarization := None; escalate := Some false; other_actions := ∅ |}.
Proof. vm_compute. reflexivity. Qed.

(** C8 (as amended).  Given a [dict], or a [str] that decodes to one,
    [return_form] returns a [str]: the descriptor serialised by
    [json.dumps], not the descriptor itself. *)
Theorem return_form_returns_json_text (form_request : form_request_arg)
    (tool_context : ToolContext) (instructions : option string) (d : dict) :
  snapshot_of form_request = Some d ->
  fst (return_form form_request tool_context instructions)
  = Return (json_dumps (form_dict (keys d) (JDict d) instructions)).
Proof. intros Hs. rewrite (return_form_snapshot _ _ _ _ Hs). reflexivity. Qed.

Lemma return_form_returns_json_text_witness :
  fst (return_form (ArgStr "{ }")
         {| actions := {| skip_summarization := None; escalate := None;
                          other_actions := ∅ |};
            other_attributes := ∅ |}
         (Some "Fill in the form"))
  = Return (json_dumps (form_dict (keys []) (JDict []) (Some "Fill in the form"))).
Proof.
  apply (return_form_returns_json_text (ArgStr "{ }")).
  vm_compute. reflexivity.
Defined.

(** C8, as stated, fails: a [str] that decodes to a list has no [keys], and
    the call ends with [AttributeError] instead of returning. *)
Lemma return_form_non_dict_raises :
  fst (return_form (ArgStr "[]")
         {| actions := {| skip_summarization := None; escalate := None;
                          other_actions := ∅ |};
            other_attributes := ∅ |}
         None)
  = Raise AttributeError.
Proof. vm_compute. reflexivity. Qed.

(** C10.  The descriptor [return_form] serialises is the same for every
    snapshot and every [instructions] but for three entries: [required] (the
    keys of the snapshot), [form_data] (the snapshot) and [instructions].
    Its [type], the [type] of its [form] and the [properties] with their four
    fields are constants. *)
Theorem return_form_schema_constant (form_request : form_request_arg)
    (tool_context : ToolContext) (instructions : option string) (d : dict) :
  snapshot_of form_request = Some d ->
  fst (return_form form_request tool_context instructions)
  = Return
      (json_dumps
         (JDict
            [ ("type", JStr "form");
              ("form",
               JDict [ ("type", JStr "object");
                       ("properties", properties_schema);
                       ("required", JList (map JStr (keys d))) ]);
              ("form_data", JDict d);
              ("instructions", of_optional_str instructions) ])).
Proof. intros Hs. rewrite (return_form_snapshot _ _ _ _ Hs). reflexivity. Qed.

Lemma return_form_schema_constant_witness :
  fst (return_form (ArgStr "{}")
         {| actions := {| skip_summarization := None; escalate := None;
                          other_actions := ∅ |};
            other_attributes := ∅ |}
         None)
  = Return
      (json_dumps
         (JDict
            [ ("type", JStr "form");
              ("form",
               JDict [ ("type", JStr "object");
                       ("properties", properties_schema);
                       ("required", JList []) ]);
              ("form_data", JDict []);
              ("instructions", JNull) ])).
Proof.
  apply (return_form_schema_constant (ArgStr "{}") _ None []).
  vm_compute. reflexivity.
Defined.

(** ** The workflow from end to end *)

(** A request is created with placeholders, its form is built with all four
    fields required and the context escalated, and the request is approved,
    twice. *)
Example workflow :
  let tool_context :=
    {| actions := {| skip_summarization := None; escalate := None;
                     other_actions := ∅ |};
       other_attributes := ∅ |} in
  let '(created, w1) := create_request_form None None None (initial (fun _ => 234567)) in
  match created with
  | Return snapshot =>
      returned_id created = Some "request_id_1234567"
      /\ return_form (ArgDict snapshot) tool_context None
         = (Return (json_dumps (form_dict [ "request_id"; "date"; "amount"; "purpose" ]
                                  (JDict snapshot) None)),
            escalated tool_context)
      /\ fst (reimburse "request_id_1234567" w1)
         = Return [ ("request_id", JStr "request_id_1234567"); ("status", JStr "approved") ]
      /\ fst (reimburse "request_id_1234567" (snd (reimburse "request_id_1234567" w1)))
         = Return [ ("request_id", JStr "request_id_1234567"); ("status", JStr "approved") ]
  | _ => False
  end.
Proof. vm_compute. repeat split; reflexivity. Qed.

(** The text [return_form] returns decodes back to the descriptor. *)
Example return_form_text_decodes :
  match fst (return_form
               (ArgDict [ ("date", JStr "2024-05-01"); ("amount", JStr "100") ])
               {| actions := {| skip_summarization := None; escalate := None;
                                other_actions := ∅ |};
                  other_attributes := ∅ |}
               (Some "Fill in the form")) with
  | Return text =>
      json_loads text
      = Return (form_dict [ "date"; "amount" ]
                  (JDict [ ("date", JStr "2024-05-01"); ("amount", JStr "100") ])
                  (Some "Fill in the form"))
  | _ => False
  end.
Proof. vm_compute. reflexivity. Qed.

(** * Further properties *)

(** ** Sessions: the registry over any sequence of tool calls *)

Lemma call_tools_cons (c : tool_call) (calls : list tool_call) (w : world) :
  call_tools (c :: calls) w =
  (fst (call_tool c w) :: fst (call_tools calls (snd (call_tool c w))),
   snd (call_tools calls (snd (call_tool c w)))).
Proof.
  cbn [call_tools]. destruct (call_tool c w) as [r w1]. cbn [fst snd].
  destruct (call_tools calls w1) as [rs w2]. reflexivity.
Qed.

(** What one call does to the registry: a creation adds the identifier it
    returns, the other two tools leave it alone. *)
Lemma call_tool_registry (c : tool_call) (w : world) :
  request_ids (snd (call_tool c w)) =
  match minted (fst (call_tool c w)) with
  | Some i => {[ i ]} ∪ request_ids w
  | None => request_ids w
  end.
Proof.
  destruct c as [a|fr tc instr|i]; cbn [call_tool].
  - rewrite create_request_form_unfold. reflexivity.
  - destruct (return_form fr tc instr). reflexivity.
  - unfold reimburse. destruct (decide (i ∉ request_ids w)); reflexivity.
Qed.

Lemma call_tools_registry (calls : list tool_call) (w : world) (i : string) :
  i ∈ request_ids (snd (call_tools calls w))
  <-> i ∈ request_ids w \/ Some i ∈ map minted (fst (call_tools calls w)).
Proof.
  revert w. induction calls as [|c calls IH]; intros w.
  - cbn. rewrite elem_of_nil. tauto.
  - rewrite call_tools_cons. cbn [fst snd map].
    rewrite IH, call_tool_registry, elem_of_cons.
    destruct (minted (fst (call_tool c w))) as [j|].
    + rewrite elem_of_union, elem_of_singleton.
      split; [intros [[->|H]|H]|intros [H|[H|H]]]; auto.
      injection H as ->. auto.
    + split; [intros [H|H]|intros [H|[H|H]]]; auto. discriminate H.
Qed.

Lemma reimburse_approved_iff (request_id : string) (w : world) :
  fst (reimburse request_id w) = approved request_id <-> request_id ∈ request_ids w.
Proof.
  unfold reimburse, approved.
  destruct (decide (request_id ∉ request_ids w)) as [Hn|Hin]; cbn [fst].
  - split; [discriminate|]. intros H. destruct (Hn H).
  - split; [|reflexivity]. intros _.
    destruct (decide (request_id ∈ request_ids w)) as [H|H]; [exact H|].
    destruct (Hin H).
Qed.

(** X1.  The registry only grows: whatever tools are called afterwards, with
    whatever arguments, an identifier that [reimburse] approves is approved
    still. *)
Theorem approved_stays_approved (calls : list tool_call) (w : world)
    (request_id : string) :
  fst (reimburse request_id w) = approved request_id ->
  fst (reimburse request_id (snd (call_tools calls w))) = approved request_id.
Proof.
  rewrite !reimburse_approved_iff, call_tools_registry. auto.
Qed.

Lemma approved_stays_approved_witness :
  let w := snd (create_request_form None None None (initial (fun _ => 0))) in
  let calls :=
    [ CallReimburse "request_id_7654321";
      CallCreate {| arg_date := Some "2024-05-01"; arg_amount := None;
                    arg_purpose := None |};
      CallReimburse "request_id_1000000" ] in
  fst (reimburse "request_id_1000000" (snd (call_tools calls w)))
  = approved "request_id_1000000".
Proof.
  cbv zeta.
  apply (approved_stays_approved _ _ "request_id_1000000").
  apply reimburse_approved_iff. rewrite create_request_form_registry.
  apply elem_of_union_l, elem_of_singleton. vm_compute. reflexivity.
Defined.

(** X2.  In a process, which starts with an empty registry, [reimburse]
    approves exactly the identifiers that an earlier call of
    [create_request_form] returned; every other text gets the error status,
    whatever was called before. *)
Theorem approved_iff_minted (calls : list tool_call) (g : nat -> Z)
    (request_id : string) :
  (fst (reimburse request_id (snd (call_tools calls (initial g)))) = approved request_id
   <-> Some request_id ∈ map minted (fst (call_tools calls (initial g))))
  /\ (fst (reimburse request_id (snd (call_tools calls (initial g))))
      = Return [ ("request_id", JStr request_id);
                 ("status", JStr "Error: Invalid request_id.") ]
      <-> Some request_id ∉ map minted (fst (call_tools calls (initial g)))).
Proof.
  assert (Hreg : request_id ∈ request_ids (snd (call_tools calls (initial g)))
                 <-> Some request_id ∈ map minted (fst (call_tools calls (initial g)))).
  { rewrite call_tools_registry. cbn [initial request_ids].
    split; [intros [H|H]|auto]; [|exact H].
    destruct (not_elem_of_empty (C:=gset string) _ H). }
  split.
  - rewrite reimburse_approved_iff. exact Hreg.
  - rewrite <- Hreg. unfold reimburse.
    destruct (decide (request_id ∉ _)) as [Hn|Hin]; cbn [fst].
    + split; auto.
    + split; [discriminate|]. intros H. destruct (Hin H).
Qed.

(** X3.  The identifier [create_request_form] returns is approved by
    [reimburse] at any later time, whatever tools were called in between. *)
Theorem created_then_approved (date amount purpose : option string) (w : world)
    (calls : list tool_call) :
  exists request_id : string,
    returned_id (fst (create_request_form date amount purpose w)) = Some request_id
    /\ fst (reimburse request_id
              (snd (call_tools calls (snd (create_request_form date amount purpose w)))))
       = approved request_id.
Proof.
  eexists. split; [apply create_request_form_id|].
  apply reimburse_approved_iff, call_tools_registry. left.
  rewrite create_request_form_registry.
  apply elem_of_union_l, elem_of_singleton. reflexivity.
Qed.

Lemma minted_shape (calls : list tool_call) (w : world) (i : string) :
  Some i ∈ map minted (fst (call_tools calls w)) ->
  exists n : Z, 1000000 <= n <= 9999999 /\ i = "request_id_" +:+ str n.
Proof.
  revert w. induction calls as [|c calls IH]; intros w.
  - cbn. intros H. destruct (not_elem_of_nil _ H).
  - rewrite call_tools_cons. cbn [fst map]. rewrite elem_of_cons.
    intros [H|H]; [|exact (IH _ H)].
    destruct c as [a|fr tc instr|j]; cbn [call_tool] in H.
    + rewrite create_request_form_unfold in H. cbn in H. injection H as ->.
      exists (fst (randint 1000000 9999999 w)). split; [|reflexivity].
      apply randint_range. lia.
    + destruct (return_form fr tc instr). discriminate H.
    + destruct (reimburse j w). discriminate H.
Qed.

(** X4.  In a process, every identifier [reimburse] approves is
    ["request_id_"] followed by the numeral of an integer from 1000000 to
    9999999: no other text is ever approved. *)
Theorem approved_has_shape (calls : list tool_call) (g : nat -> Z)
    (request_id : string) :
  fst (reimburse request_id (snd (call_tools calls (initial g)))) = approved request_id ->
  exists n : Z, 1000000 <= n <= 9999999 /\ request_id = "request_id_" +:+ str n.
Proof.
  rewrite reimburse_approved_iff, call_tools_registry. cbn [initial request_ids].
  intros [H|H].
  - destruct (not_elem_of_empty (C:=gset string) _ H).
  - exact (minted_shape _ _ _ H).
Qed.

Lemma approved_has_shape_witness :
  exists n : Z, 1000000 <= n <= 9999999 /\ "request_id_1000007" = "request_id_" +:+ str n.
Proof.
  apply (approved_has_shape
           [ CallCreate {| arg_date := None; arg_amount := None; arg_purpose := None |} ]
           (fun _ => 7)).
  apply reimburse_approved_iff, call_tools_registry. right.
  match goal with
  | |- _ ∈ ?l =>
      assert (l = [ Some "request_id_1000007" ]) as -> by (vm_compute; reflexivity)
  end.
  apply list_elem_of_here.
Defined.

Lemma size_list_to_set_le (l : list string) :
  (size (list_to_set (C:=gset string) l) <= List.length l)%nat.
Proof.
  induction l as [|x l IH]; cbn [list_to_set List.length].
  - rewrite size_empty. lia.
  - pose proof (size_union_alt (C:=gset string) {[ x ]} (list_to_set l)) as Hu.
    rewrite Hu, size_singleton.
    pose proof (subseteq_size (C:=gset string)
                  (list_to_set l ∖ {[ x ]}) (list_to_set l)) as Hd.
    assert (list_to_set (C:=gset string) l ∖ {[ x ]} ⊆ list_to_set l) as Hsub
      by set_solver.
    specialize (Hd Hsub). lia.
Qed.

Lemma size_list_to_set_NoDup (l : list string) :
  size (list_to_set (C:=gset string) l) = List.length l <-> NoDup l.
Proof.
  split; [|apply size_list_to_set].
  induction l as [|x l IH]; [constructor|].
  cbn [list_to_set List.length]. intros Hsize.
  pose proof (size_list_to_set_le l) as Hle.
  destruct (decide (x ∈ l)) as [Hin|Hnin].
  - exfalso.
    assert ({[ x ]} ∪ list_to_set (C:=gset string) l = list_to_set l) as Heq
      by set_solver.
    rewrite Heq in Hsize. lia.
  - constructor; [exact Hnin|]. apply IH.
    rewrite size_union in Hsize by set_solver.
    rewrite size_singleton in Hsize. lia.
Qed.

Lemma call_tools_registry_initial (calls : list tool_call) (g : nat -> Z) :
  request_ids (snd (call_tools calls (initial g)))
  = list_to_set (minted_ids (fst (call_tools calls (initial g)))).
Proof.
  apply set_eq. intros i.
  rewrite call_tools_registry, elem_of_list_to_set. cbn [initial request_ids].
  unfold minted_ids. rewrite list_elem_of_omap.
  change (map minted ?l) with (minted <$> l). rewrite list_elem_of_fmap.
  split.
  - intros [H|(r & Hr & Hin)].
    + destruct (not_elem_of_empty (C:=gset string) _ H).
    + exists r. split; [exact Hin|congruence].
  - intros (r & Hin & Hr). right. exists r. split; [congruence|exact Hin].
Qed.

(** X5.  The registry of a process never holds more identifiers than were
    minted, and it holds as many exactly when the minted identifiers are
    pairwise distinct: an identifier minted again is stored once, and the
    two requests share it. *)
Theorem registry_size_minted (calls : list tool_call) (g : nat -> Z) :
  (size (request_ids (snd (call_tools calls (initial g))))
   <= List.length (minted_ids (fst (call_tools calls (initial g)))))%nat
  /\ (size (request_ids (snd (call_tools calls (initial g))))
      = List.length (minted_ids (fst (call_tools calls (initial g))))
      <-> NoDup (minted_ids (fst (call_tools calls (initial g))))).
Proof.
  rewrite call_tools_registry_initial. split.
  - apply size_list_to_set_le.
  - apply size_list_to_set_NoDup.
Qed.

(** ** [json.dumps] and [json.loads] are inverse *)

Ltac ascii_cases c := destruct c as [[] [] [] [] [] [] [] []].

Lemma string_app_cons (x : ascii) (a b : string) :
  String x a +:+ b = String x (a +:+ b).
Proof. reflexivity. Qed.

Lemma string_app_assoc (a b c : string) : (a +:+ b) +:+ c = a +:+ (b +:+ c).
Proof.
  induction a as [|x a IH]; [reflexivity|].
  rewrite !string_app_cons, IH. reflexivity.
Qed.

Lemma string_app_nil_r (a : string) : a +:+ "" = a.
Proof.
  induction a as [|x a IH]; [reflexivity|].
  rewrite string_app_cons, IH. reflexivity.
Qed.

(** *** Strings *)

Lemma scanstring_escape_char (c : ascii) (t : string) :
  scanstring (escape_char c +:+ t) = scan_map (String c) (scanstring t).
Proof. ascii_cases c; reflexivity. Qed.

Lemma scan_map_scan_map {A : Type} (f g : A -> A) (x : scan A) :
  scan_map f (scan_map g x) = scan_map (fun a => f (g a)) x.
Proof. destruct x; reflexivity. Qed.

Lemma scanstring_escape_string (s t : string) :
  scanstring (escape_string s +:+ String dquote t) = Scanned s t.
Proof.
  induction s as [|c s IH]; cbn [escape_string].
  - reflexivity.
  - rewrite string_app_assoc, scanstring_escape_char, IH. reflexivity.
Qed.

Lemma scanstring_encoded (s t : string) :
  exists r, encode_basestring_ascii s +:+ t = String dquote r
            /\ scanstring r = Scanned s t.
Proof.
  exists (escape_string s +:+ String dquote t). split.
  - unfold encode_basestring_ascii.
    rewrite string_app_cons, string_app_assoc. reflexivity.
  - apply scanstring_escape_string.
Qed.

(** *** Integers *)

Lemma pretty_N_char_digit (d : N) :
  (d < 10)%N ->
  is_digit (pretty_N_char d) = true /\ digit_value (pretty_N_char d) = Z.of_N d.
Proof.
  intros Hd.
  assert (d = 0 \/ d = 1 \/ d = 2 \/ d = 3 \/ d = 4 \/ d = 5 \/ d = 6 \/ d = 7
          \/ d = 8 \/ d = 9)%N as H by lia.
  repeat (destruct H as [->|H]; [split; reflexivity|]). subst d. split; reflexivity.
Qed.

Lemma pretty_N_go_app (x : N) (s t : string) :
  pretty_N_go x s +:+ t = pretty_N_go x (s +:+ t).
Proof.
  revert s. induction (N.lt_wf_0 x) as [x _ IH]; intros s.
  destruct (N.eq_dec x 0) as [->|Hx].
  - rewrite !pretty_N_go_0. reflexivity.
  - rewrite !(pretty_N_go_step x) by lia.
    rewrite IH by (apply N.div_lt; lia). reflexivity.
Qed.

(** The digits [pretty_N_go] writes for a positive number start with a digit
    other than [0] and read back as the number. *)
Lemma digits_pretty_N_go (x : N) :
  (0 < x)%N ->
  forall t : string,
    exists (c : ascii) (r : string),
      pretty_N_go x t = String c r
      /\ is_digit c = true
      /\ Ascii.eqb c "0" = false
      /\ digits (digit_value c) r = digits (Z.of_N x) t.
Proof.
  induction (N.lt_wf_0 x) as [x _ IH]; intros Hx t.
  rewrite (pretty_N_go_step x) by exact Hx.
  pose proof (N.mod_lt x 10 ltac:(lia)) as Hd.
  pose proof (N.div_mod x 10 ltac:(lia)) as Hdm.
  destruct (pretty_N_char_digit _ Hd) as [Hdig Hval].
  destruct (N.eq_dec (x `div` 10) 0) as [Hq|Hq].
  - rewrite Hq, pretty_N_go_0.
    exists (pretty_N_char (x `mod` 10)), t. split; [reflexivity|].
    split; [exact Hdig|]. split.
    + assert (x `mod` 10 = x)%N as Hx' by lia. rewrite Hx'.
      assert (x = 1 \/ x = 2 \/ x = 3 \/ x = 4 \/ x = 5 \/ x = 6 \/ x = 7
              \/ x = 8 \/ x = 9)%N as H by lia.
      repeat (destruct H as [->|H]; [reflexivity|]). subst x. reflexivity.
    + rewrite Hval. f_equal. lia.
  - destruct (IH (x `div` 10)%N) with (t := String (pretty_N_char (x `mod` 10)) t)
      as (c & r & Heq & Hc & Hc0 & Hdigits).
    { apply N.div_lt; lia. }
    { lia. }
    exists c, r. split; [exact Heq|]. split; [exact Hc|]. split; [exact Hc0|].
    rewrite Hdigits. cbn [digits]. rewrite Hdig, Hval. f_equal. lia.
Qed.

Lemma digits_at_delimiter (n : Z) (t : string) :
  at_delimiter t = true -> digits n t = (n, t).
Proof.
  destruct t as [|c t]; [reflexivity|]. cbn [at_delimiter digits].
  ascii_cases c; cbn; intros H; try discriminate H; reflexivity.
Qed.

Lemma float_tail_at_delimiter (t : string) :
  at_delimiter t = true -> float_tail t = false.
Proof.
  destruct t as [|c t]; [reflexivity|]. cbn [at_delimiter].
  ascii_cases c; cbn; intros H; try discriminate H; reflexivity.
Qed.

Lemma is_digit_not_minus (c : ascii) (r : string) :
  is_digit c = true -> strip_prefix "-" (String c r) = None.
Proof. ascii_cases c; cbn; intros H; try discriminate H; reflexivity. Qed.

Lemma match_number_positive (x : N) (t : string) :
  (0 < x)%N -> at_delimiter t = true ->
  exists (c : ascii) (r : string),
    pretty_N_go x t = String c r
    /\ is_digit c = true
    /\ match_number (pretty_N_go x t) = Some (Scanned (JInt (Z.of_N x)) t)
    /\ match_number (String "-" (pretty_N_go x t))
       = Some (Scanned (JInt (- Z.of_N x)) t).
Proof.
  intros Hx Ht.
  destruct (digits_pretty_N_go x Hx t) as (c & r & Heq & Hc & Hc0 & Hdigits).
  rewrite (digits_at_delimiter _ _ Ht) in Hdigits.
  exists c, r. split; [exact Heq|]. split; [exact Hc|].
  rewrite Heq. unfold match_number. split.
  - rewrite (is_digit_not_minus _ _ Hc). rewrite Hc0, Hc, Hdigits.
    rewrite (float_tail_at_delimiter _ Ht). reflexivity.
  - change (strip_prefix "-" (String "-" (String c r))) with (Some (String c r)).
    cbv beta iota. rewrite Hc0, Hc, Hdigits.
    rewrite (float_tail_at_delimiter _ Ht). reflexivity.
Qed.

(** The numeral of [z] followed by a delimiter: the first character and what
    [match_number] reads. *)
Lemma match_number_str (z : Z) (t : string) :
  at_delimiter t = true ->
  exists (c : ascii) (r : string),
    str z +:+ t = String c r
    /\ (is_digit c = true \/ c = "-"%char)
    /\ match_number (str z +:+ t) = Some (Scanned (JInt z) t).
Proof.
  intros Ht. unfold str, pretty, pretty_Z.
  destruct z as [|p|p].
  - exists "0"%char, t. split; [reflexivity|]. split; [left; reflexivity|].
    rewrite string_app_cons. unfold match_number.
    change (strip_prefix "-" (String "0" ("" +:+ t))) with (@None string).
    change ("" +:+ t) with t. cbn [Ascii.eqb Bool.eqb].
    rewrite (float_tail_at_delimiter _ Ht). reflexivity.
  - unfold pretty, pretty_positive, pretty, pretty_N.
    destruct (decide (N.pos p = 0%N)) as [H|_]; [discriminate H|].
    rewrite pretty_N_go_app. change ("" +:+ t) with t.
    destruct (match_number_positive (N.pos p) t ltac:(lia) Ht)
      as (c & r & Heq & Hc & Hm & _).
    exists c, r. split; [exact Heq|]. split; [left; exact Hc|]. exact Hm.
  - unfold pretty, pretty_positive, pretty, pretty_N.
    destruct (decide (N.pos p = 0%N)) as [H|_]; [discriminate H|].
    rewrite string_app_assoc, pretty_N_go_app. change ("" +:+ t) with t.
    destruct (match_number_positive (N.pos p) t ltac:(lia) Ht)
      as (c & r & Heq & Hc & _ & Hm).
    exists "-"%char, (pretty_N_go (N.pos p) t).
    split; [reflexivity|]. split; [right; reflexivity|]. exact Hm.
Qed.

(** *** More fuel changes nothing *)

Lemma scan_more_fuel (fuel : nat) :
  (forall s f', (fuel <= f')%nat -> scan_once fuel s <> Exhausted ->
                scan_once f' s = scan_once fuel s)
  /\ (forall values s f', (fuel <= f')%nat -> array_loop fuel values s <> Exhausted ->
                          array_loop f' values s = array_loop fuel values s)
  /\ (forall pairs s f', (fuel <= f')%nat -> object_loop fuel pairs s <> Exhausted ->
                         object_loop f' pairs s = object_loop fuel pairs s).
Proof.
  induction fuel as [|fuel (IHs & IHa & IHo)].
  { repeat split; intros;
      match goal with H : _ <> Exhausted |- _ => destruct (H eq_refl) end. }
  split; [|split].
  - intros s [|f'] Hle; [lia|]. rewrite !scan_once_S.
    destruct s as [|c s']; [reflexivity|].
    destruct (Ascii.eqb c dquote); [reflexivity|].
    destruct (Ascii.eqb c "{").
    { destruct (strip_prefix "}" (skip_ws s')); [reflexivity|].
      destruct (strip_prefix (String dquote "") (skip_ws s')); [|reflexivity].
      apply IHo. lia. }
    destruct (Ascii.eqb c "["); [|reflexivity].
    destruct (strip_prefix "]" (skip_ws s')); [reflexivity|].
    apply IHa. lia.
  - intros values s [|f'] Hle; [lia|]. rewrite !array_loop_S.
    destruct (scan_once fuel s) as [value r| | |] eqn:Hv.
    + rewrite (IHs s f') by first [lia | rewrite Hv; discriminate]. rewrite Hv.
      destruct (strip_prefix "]" (skip_ws r)); [reflexivity|].
      destruct (strip_prefix "," (skip_ws r)); [|reflexivity].
      apply IHa. lia.
    + rewrite (IHs s f') by first [lia | rewrite Hv; discriminate]. rewrite Hv.
      reflexivity.
    + rewrite (IHs s f') by first [lia | rewrite Hv; discriminate]. rewrite Hv.
      reflexivity.
    + intros H. destruct (H eq_refl).
  - intros pairs s [|f'] Hle; [lia|]. rewrite !object_loop_S.
    destruct (scanstring s) as [key r| | |]; try reflexivity.
    destruct (strip_prefix ":" (skip_ws r)) as [r1|]; [|reflexivity].
    destruct (scan_once fuel (skip_ws r1)) as [value r2| | |] eqn:Hv.
    + rewrite (IHs (skip_ws r1) f') by first [lia | rewrite Hv; discriminate]. rewrite Hv.
      destruct (strip_prefix "}" (skip_ws r2)); [reflexivity|].
      destruct (strip_prefix "," (skip_ws r2)) as [r3|]; [|reflexivity].
      destruct (strip_prefix (String dquote "") (skip_ws r3)); [|reflexivity].
      apply IHo. lia.
    + rewrite (IHs (skip_ws r1) f') by first [lia | rewrite Hv; discriminate]. rewrite Hv.
      reflexivity.
    + rewrite (IHs (skip_ws r1) f') by first [lia | rewrite Hv; discriminate]. rewrite Hv.
      reflexivity.
    + intros H. destruct (H eq_refl).
Qed.

Lemma scan_once_more_fuel (fuel f' : nat) (s : string) (v : json) (r : string) :
  (fuel <= f')%nat -> scan_once fuel s = Scanned v r -> scan_once f' s = Scanned v r.
Proof.
  intros Hle H. rewrite (proj1 (scan_more_fuel fuel) s f' Hle); [exact H|].
  rewrite H. discriminate.
Qed.

(** *** Keys *)

Lemma existsb_eqb_elem_of (x : string) (l : list string) :
  existsb (String.eqb x) l = true <-> x ∈ l.
Proof.
  rewrite existsb_exists. split.
  - intros (y & Hin & Heq). apply String.eqb_eq in Heq as ->.
    apply list_elem_of_In, Hin.
  - intros Hin. exists x. split; [apply list_elem_of_In, Hin|apply String.eqb_refl].
Qed.

Lemma distinct_NoDup (l : list string) : distinct l = true <-> NoDup l.
Proof.
  induction l as [|x l IH]; cbn [distinct].
  - split; [constructor|reflexivity].
  - rewrite andb_true_iff, negb_true_iff, IH, NoDup_cons.
    rewrite <- not_true_iff_false, existsb_eqb_elem_of. reflexivity.
Qed.

Lemma setitem_fresh (k : string) (v : json) (d : dict) :
  k ∉ map fst d -> setitem k v d = (d ++ [(k, v)])%list.
Proof.
  induction d as [|[k' v'] d IH]; cbn [setitem map fst]; [reflexivity|].
  rewrite not_elem_of_cons. intros [Hne Hnin].
  destruct (String.eqb_spec k k') as [->|_]; [destruct (Hne eq_refl)|].
  rewrite (IH Hnin). reflexivity.
Qed.

Lemma fold_setitem (d2 d1 : dict) :
  NoDup (map fst (d1 ++ d2)%list) ->
  fold_left (fun d kv => setitem (fst kv) (snd kv) d) d2 d1 = (d1 ++ d2)%list.
Proof.
  revert d1. induction d2 as [|[k v] d2 IH]; intros d1 Hnd; cbn [fold_left fst snd].
  - rewrite app_nil_r. reflexivity.
  - assert (k ∉ map fst d1) as Hfresh.
    { rewrite map_app in Hnd. cbn [map fst] in Hnd.
      apply NoDup_app in Hnd as (_ & Hdisj & _).
      intros Hin. apply (Hdisj k Hin). apply list_elem_of_here. }
    rewrite (setitem_fresh _ _ _ Hfresh), IH.
    + rewrite <- app_assoc. reflexivity.
    + rewrite <- app_assoc. exact Hnd.
Qed.

(** [dict(pairs)] of pairs with pairwise different keys is the pairs. *)
Lemma dict_of_pairs_distinct (d : dict) :
  distinct (map fst d) = true -> dict_of_pairs d = d.
Proof.
  intros Hd. unfold dict_of_pairs. rewrite fold_setitem; [reflexivity|].
  apply distinct_NoDup, Hd.
Qed.

(** *** Values *)

(** Induction on values, with the hypothesis for every item of a list and
    every value of a dict. *)
Lemma json_induction (P : json -> Prop) :
  P JNull ->
  (forall b, P (JBool b)) ->
  (forall z, P (JInt z)) ->
  (forall s, P (JStr s)) ->
  (forall l, Forall P l -> P (JList l)) ->
  (forall d, Forall (fun kv => P (snd kv)) d -> P (JDict d)) ->
  forall v, P v.
Proof.
  intros Hnull Hbool Hint Hstr Hlist Hdict.
  fix IH 1. intros [|b|z|s|l|d].
  - exact Hnull.
  - apply Hbool.
  - apply Hint.
  - apply Hstr.
  - apply Hlist. induction l as [|x l IHl]; constructor; [apply IH|exact IHl].
  - apply Hdict. induction d as [|[k x] d IHd]; constructor; [apply IH|exact IHd].
Qed.

Lemma value_start_facts (c : ascii) :
  value_start c = true ->
  is_ws c = false /\ Ascii.eqb "]" c = false /\ Ascii.eqb "}" c = false.
Proof. ascii_cases c; cbn; intros H; try discriminate H; repeat split. Qed.

Lemma number_start_facts (c : ascii) :
  is_digit c = true \/ c = "-"%char ->
  value_start c = true
  /\ Ascii.eqb c dquote = false /\ Ascii.eqb c "{" = false /\ Ascii.eqb c "[" = false
  /\ Ascii.eqb "n" c = false /\ Ascii.eqb "t" c = false /\ Ascii.eqb "f" c = false.
Proof.
  intros [H| ->]; [|repeat split].
  revert H. ascii_cases c; cbn; intros H; try discriminate H; repeat split.
Qed.

(** The text of a value starts with a character only a value starts with. *)
Lemma json_dumps_start (v : json) (rest : string) :
  at_delimiter rest = true ->
  exists (c : ascii) (r : string),
    json_dumps v +:+ rest = String c r /\ value_start c = true.
Proof.
  intros Hrest. destruct v as [|[]|z|s|l|d]; cbn [json_dumps];
    try (eexists; eexists; split; [reflexivity|reflexivity]).
  - destruct (match_number_str z rest Hrest) as (c & r & Heq & Hc & _).
    exists c, r. split; [exact Heq|]. apply number_start_facts, Hc.
Qed.

Lemma skip_ws_value_start (c : ascii) (r : string) :
  value_start c = true -> skip_ws (String c r) = String c r.
Proof.
  intros H. destruct (value_start_facts c H) as (Hws & _).
  cbn [skip_ws]. rewrite Hws. reflexivity.
Qed.

Lemma scan_once_null (f : nat) (rest : string) :
  scan_once (S f) ("null" +:+ rest) = Scanned JNull rest.
Proof. reflexivity. Qed.

Lemma scan_once_bool (f : nat) (b : bool) (rest : string) :
  scan_once (S f) (json_dumps (JBool b) +:+ rest) = Scanned (JBool b) rest.
Proof. destruct b; reflexivity. Qed.

Lemma scan_once_int (f : nat) (z : Z) (rest : string) :
  at_delimiter rest = true ->
  scan_once (S f) (str z +:+ rest) = Scanned (JInt z) rest.
Proof.
  intros Hrest.
  destruct (match_number_str z rest Hrest) as (c & r & Heq & Hc & Hm).
  rewrite Heq in *.
  destruct (number_start_facts c Hc) as (_ & Hq & Hb & Hk & Hn & Ht & Hf).
  rewrite scan_once_S, Hq, Hb, Hk. unfold scan_constant.
  cbn [strip_prefix]. rewrite Hn, Ht, Hf, Hm. reflexivity.
Qed.

Lemma scan_once_str (f : nat) (s rest : string) :
  scan_once (S f) (encode_basestring_ascii s +:+ rest) = Scanned (JStr s) rest.
Proof.
  destruct (scanstring_encoded s rest) as (r & Heq & Hs).
  rewrite Heq, scan_once_S.
  change (Ascii.eqb dquote dquote) with true. cbv iota.
  rewrite Hs. reflexivity.
Qed.

Lemma concat_cons2 (sep x y : string) (l : list string) :
  String.concat sep (x :: y :: l) = x +:+ sep +:+ String.concat sep (y :: l).
Proof. reflexivity. Qed.

(** The text of the items of a list and the closing bracket, split at the
    first item. *)
Lemma items_text_cons (x : json) (l : list json) (rest : string) :
  exists tail : string,
    String.concat ", " (map json_dumps (x :: l)) +:+ "]" +:+ rest
    = json_dumps x +:+ tail
    /\ at_delimiter tail = true
    /\ match l with
       | [] => tail = "]" +:+ rest
       | _ :: _ =>
           tail = String "," (String " "
                    (String.concat ", " (map json_dumps l) +:+ "]" +:+ rest))
       end.
Proof.
  destruct l as [|y l].
  - exists ("]" +:+ rest). repeat split; reflexivity.
  - eexists. cbn [map]. rewrite concat_cons2, !string_app_assoc.
    split; [reflexivity|]. split; reflexivity.
Qed.

Lemma items_text_start (l : list json) (rest : string) :
  l <> [] ->
  exists (c : ascii) (r : string),
    String.concat ", " (map json_dumps l) +:+ "]" +:+ rest = String c r
    /\ value_start c = true.
Proof.
  destruct l as [|x l]; [congruence|]. intros _.
  destruct (items_text_cons x l rest) as (tail & -> & Htail & _).
  apply json_dumps_start, Htail.
Qed.

Lemma array_loop_items (l : list json) :
  Forall scans_back l -> forallb unique_keys l = true -> l <> [] ->
  forall rest : string,
    exists f0 : nat,
      forall f : nat, (f0 <= f)%nat ->
        forall values : list json,
          array_loop f values
            (String.concat ", " (map json_dumps l) +:+ "]" +:+ rest)
          = Scanned (JList (rev values ++ l)%list) rest.
Proof.
  induction l as [|x l IH]; [congruence|].
  intros Hall Huniq _ rest.
  apply Forall_cons in Hall as [Hx Hall].
  cbn [forallb] in Huniq. apply andb_true_iff in Huniq as [Hux Hul].
  destruct (items_text_cons x l rest) as (tail & -> & Htail & Hcase).
  destruct (Hx Hux tail Htail) as (fx & Hfx).
  destruct l as [|y l].
  - subst tail. exists (S fx). intros [|f] Hle values; [lia|].
    rewrite array_loop_S, Hfx by lia.
    change (strip_prefix "]" (skip_ws ("]" +:+ rest))) with (Some rest).
    cbv iota. cbn [rev]. reflexivity.
  - destruct (IH Hall Hul ltac:(congruence) rest) as (fl & Hfl).
    destruct (items_text_start (y :: l) rest ltac:(congruence)) as (c & r & Heq & Hc).
    subst tail. exists (S (Nat.max fx fl)). intros [|f] Hle values; [lia|].
    rewrite array_loop_S, Hfx by lia.
    change (skip_ws (String "," ?t)) with (String "," t).
    change (strip_prefix "]" (String "," ?t)) with (@None string).
    change (strip_prefix "," (String "," ?t)) with (Some t).
    cbv iota.
    change (skip_ws (String " " ?t)) with (skip_ws t).
    rewrite Heq, (skip_ws_value_start _ _ Hc), <- Heq.
    rewrite Hfl by lia. cbn [rev]. rewrite <- app_assoc. reflexivity.
Qed.

(** The text of the members of a dict and the closing brace, split at the
    first member. *)
Lemma members_text_cons (k : string) (v : json) (d : dict) (rest : string) :
  exists tail : string,
    String.concat ", " (map member_text ((k, v) :: d)) +:+ "}" +:+ rest
    = encode_basestring_ascii k +:+ String ":" (String " " (json_dumps v +:+ tail))
    /\ at_delimiter tail = true
    /\ match d with
       | [] => tail = "}" +:+ rest
       | _ :: _ =>
           tail = String "," (String " "
                    (String.concat ", " (map member_text d) +:+ "}" +:+ rest))
       end.
Proof.
  destruct d as [|kv d].
  - exists ("}" +:+ rest). split; [|split; reflexivity].
    cbn [map String.concat]. unfold member_text. cbn [fst snd].
    rewrite !string_app_assoc. reflexivity.
  - eexists. cbn [map]. rewrite concat_cons2. unfold member_text at 1. cbn [fst snd].
    rewrite !string_app_assoc.
    split; [reflexivity|]. split; reflexivity.
Qed.

Lemma members_text_start (d : dict) (rest : string) :
  d <> [] ->
  exists r : string,
    String.concat ", " (map member_text d) +:+ "}" +:+ rest = String dquote r.
Proof.
  destruct d as [|[k v] d]; [congruence|]. intros _.
  destruct (members_text_cons k v d rest) as (tail & -> & _).
  unfold encode_basestring_ascii. eexists. reflexivity.
Qed.

Lemma object_loop_members (d : dict) :
  Forall (fun kv => scans_back (snd kv)) d ->
  forallb (fun kv => unique_keys (snd kv)) d = true ->
  d <> [] ->
  forall rest : string,
    exists f0 : nat,
      forall f : nat, (f0 <= f)%nat ->
        forall (pairs : list (string * json)) (r1 : string),
          String dquote r1 = String.concat ", " (map member_text d) +:+ "}" +:+ rest ->
          object_loop f pairs r1
          = Scanned (JDict (dict_of_pairs (rev pairs ++ d)%list)) rest.
Proof.
  induction d as [|[k v] d IH]; [congruence|].
  intros Hall Huniq _ rest.
  apply Forall_cons in Hall as [Hv Hall]. cbn [snd] in Hv.
  cbn [forallb snd] in Huniq. apply andb_true_iff in Huniq as [Huv Hud].
  destruct (members_text_cons k v d rest) as (tail & Htext & Htail & Hcase).
  destruct (Hv Huv tail Htail) as (fv & Hfv).
  destruct (json_dumps_start v tail Htail) as (c & rv & Hstart & Hc).
  destruct (scanstring_encoded k (String ":" (String " " (json_dumps v +:+ tail))))
    as (r & Hr & Hscan).
  destruct d as [|kv d].
  - subst tail. exists (S fv). intros [|f] Hle pairs r1 Hr1; [lia|].
    rewrite Htext, Hr in Hr1. injection Hr1 as ->.
    rewrite object_loop_S, Hscan.
    change (skip_ws (String ":" ?t)) with (String ":" t).
    change (strip_prefix ":" (String ":" ?t)) with (Some t).
    cbv iota.
    change (skip_ws (String " " ?t)) with (skip_ws t).
    rewrite Hstart, (skip_ws_value_start _ _ Hc), <- Hstart.
    rewrite Hfv by lia.
    change (strip_prefix "}" (skip_ws ("}" +:+ rest))) with (Some rest).
    cbv iota. cbn [rev]. reflexivity.
  - destruct (IH Hall Hud ltac:(congruence) rest) as (fd & Hfd).
    destruct (members_text_start (kv :: d) rest ltac:(congruence)) as (r4 & Hr4).
    subst tail. exists (S (Nat.max fv fd)). intros [|f] Hle pairs r1 Hr1; [lia|].
    rewrite Htext, Hr in Hr1. injection Hr1 as ->.
    rewrite object_loop_S, Hscan.
    change (skip_ws (String ":" ?t)) with (String ":" t).
    change (strip_prefix ":" (String ":" ?t)) with (Some t).
    cbv iota.
    change (skip_ws (String " " ?t)) with (skip_ws t).
    rewrite Hstart, (skip_ws_value_start _ _ Hc), <- Hstart.
    rewrite Hfv by lia.
    change (skip_ws (String "," ?t)) with (String "," t).
    change (strip_prefix "}" (String "," ?t)) with (@None string).
    change (strip_prefix "," (String "," ?t)) with (Some t).
    cbv iota.
    change (skip_ws (String " " ?t)) with (skip_ws t).
    rewrite Hr4.
    change (skip_ws (String dquote r4)) with (String dquote r4).
    change (strip_prefix (String dquote "") (String dquote r4)) with (Some r4).
    cbv iota.
    rewrite (Hfd f ltac:(lia) ((k, v) :: pairs) r4 (eq_sym Hr4)).
    cbn [rev]. rewrite <- app_assoc. reflexivity.
Qed.

Lemma json_dumps_list (l : list json) (rest : string) :
  json_dumps (JList l) +:+ rest
  = String "[" (String.concat ", " (map json_dumps l) +:+ "]" +:+ rest).
Proof. cbn [json_dumps]. rewrite !string_app_assoc. reflexivity. Qed.

Lemma json_dumps_dict (d : dict) (rest : string) :
  json_dumps (JDict d) +:+ rest
  = String "{" (String.concat ", " (map member_text d) +:+ "}" +:+ rest).
Proof. cbn [json_dumps]. rewrite !string_app_assoc. reflexivity. Qed.

Lemma json_scans_back (v : json) : scans_back v.
Proof.
  induction v as [|b|z|s|l IH|d IH] using json_induction; intros Huniq rest Hrest.
  - exists 1%nat. intros [|f] Hle; [lia|]. apply scan_once_null.
  - exists 1%nat. intros [|f] Hle; [lia|]. apply scan_once_bool.
  - exists 1%nat. intros [|f] Hle; [lia|]. apply scan_once_int, Hrest.
  - exists 1%nat. intros [|f] Hle; [lia|]. apply scan_once_str.
  - cbn [unique_keys] in Huniq. rewrite json_dumps_list.
    destruct l as [|x l].
    { exists 1%nat. intros [|f] Hle; [lia|]. reflexivity. }
    destruct (array_loop_items (x :: l) IH Huniq ltac:(congruence) rest) as (f0 & Hf0).
    destruct (items_text_start (x :: l) rest ltac:(congruence)) as (c & r & Heq & Hc).
    destruct (value_start_facts c Hc) as (_ & Hclose & _).
    exists (S f0). intros [|f] Hle; [lia|].
    rewrite scan_once_S.
    change (Ascii.eqb "[" dquote) with false.
    change (Ascii.eqb "[" "{") with false.
    change (Ascii.eqb "[" "[") with true. cbv iota.
    rewrite Heq, (skip_ws_value_start _ _ Hc). cbn [strip_prefix].
    rewrite Hclose, <- Heq. apply (Hf0 f ltac:(lia) []).
  - cbn [unique_keys] in Huniq. apply andb_true_iff in Huniq as [Hkeys Hvals].
    rewrite json_dumps_dict.
    destruct d as [|kv d].
    { exists 1%nat. intros [|f] Hle; [lia|]. reflexivity. }
    destruct (object_loop_members (kv :: d) IH Hvals ltac:(congruence) rest)
      as (f0 & Hf0).
    destruct (members_text_start (kv :: d) rest ltac:(congruence)) as (r1 & Hr1).
    exists (S f0). intros [|f] Hle; [lia|].
    rewrite scan_once_S.
    change (Ascii.eqb "{" dquote) with false.
    change (Ascii.eqb "{" "{") with true. cbv iota.
    rewrite Hr1.
    change (skip_ws (String dquote r1)) with (String dquote r1).
    change (strip_prefix "}" (String dquote r1)) with (@None string).
    change (strip_prefix (String dquote "") (String dquote r1)) with (Some r1).
    cbv iota.
    rewrite (Hf0 f ltac:(lia) [] r1 (eq_sym Hr1)). cbn [rev app].
    rewrite (dict_of_pairs_distinct _ Hkeys). reflexivity.
Qed.

Lemma json_loads_dumps (v : json) :
  unique_keys v = true -> json_loads (json_dumps v) = Return v.
Proof.
  intros Huniq.
  destruct (json_scans_back v Huniq "" eq_refl) as (f0 & Hf0).
  rewrite string_app_nil_r in Hf0.
  destruct (json_dumps_start v "" eq_refl) as (c & r & Heq & Hc).
  rewrite string_app_nil_r in Heq.
  unfold json_loads, decode.
  pose proof (json_loads_fuel (json_dumps v)) as Hfuel.
  remember (2 * String.length (json_dumps v) + 2)%nat as fuel eqn:Hfueleq.
  assert (skip_ws (json_dumps v) = json_dumps v) as Hws
    by (rewrite Heq; apply skip_ws_value_start, Hc).
  rewrite Hws in *.
  assert (scan_once fuel (json_dumps v) = Scanned v "") as ->.
  { rewrite <- (proj1 (scan_more_fuel fuel) (json_dumps v) (Nat.max fuel f0));
      [|lia|exact Hfuel].
    apply Hf0. lia. }
  reflexivity.
Qed.

(** *** What the round trip gives [return_form] *)

Lemma unique_keys_strings (l : list string) : forallb unique_keys (map JStr l) = true.
Proof. induction l as [|x l IH]; [reflexivity|exact IH]. Qed.

Lemma unique_keys_form_dict (d : dict) (instructions : option string) :
  unique_keys (JDict d) = true ->
  unique_keys (form_dict (keys d) (JDict d) instructions) = true.
Proof.
  intros Hd. unfold form_dict.
  cbn [unique_keys map fst snd forallb distinct existsb] in *.
  rewrite unique_keys_strings, Hd.
  destruct instructions; reflexivity.
Qed.

(** X6.  A snapshot given to [return_form] as the text [json.dumps] writes
    for it is handled exactly as the snapshot itself: same returned text,
    same context. *)
Theorem return_form_of_dumped_snapshot (d : dict) (tool_context : ToolContext)
    (instructions : option string) :
  unique_keys (JDict d) = true ->
  return_form (ArgStr (json_dumps (JDict d))) tool_context instructions
  = return_form (ArgDict d) tool_context instructions.
Proof.
  intros Hd. unfold return_form. cbn [load_form_request].
  rewrite (json_loads_dumps _ Hd). reflexivity.
Qed.

Lemma return_form_of_dumped_snapshot_witness :
  let d := [ ("request_id", JStr "request_id_1234567");
             ("date", JStr "<transaction date>");
             ("amount", JInt 100);
             ("tags", JList [ JStr "taxi"; JNull; JBool true ]) ] in
  let tool_context :=
    {| actions := {| skip_summarization := None; escalate := None;
                     other_actions := ∅ |};
       other_attributes := ∅ |} in
  return_form (ArgStr (json_dumps (JDict d))) tool_context None
  = return_form (ArgDict d) tool_context None.
Proof.
  cbv zeta. apply return_form_of_dumped_snapshot. reflexivity.
Defined.

(** X7.  The text [return_form] returns for a snapshot is JSON that
    [json.loads] reads back to the descriptor: its [form_data] is the
    snapshot and its [required] the keys of the snapshot, in order. *)
Theorem return_form_text_loads_back (form_request : form_request_arg)
    (tool_context : ToolContext) (instructions : option string) (d : dict) :
  snapshot_of form_request = Some d ->
  unique_keys (JDict d) = true ->
  exists (text : string) (descriptor form : dict),
    fst (return_form form_request tool_context instructions) = Return text
    /\ json_loads text = Return (JDict descriptor)
    /\ getitem "form_data" descriptor = Some (JDict d)
    /\ getitem "form" descriptor = Some (JDict form)
    /\ getitem "required" form = Some (JList (map JStr (keys d)))
    /\ getitem "instructions" descriptor = Some (of_optional_str instructions).
Proof.
  intros Hs Hd. rewrite (return_form_snapshot _ _ _ _ Hs). cbn [fst].
  eexists. eexists. eexists. split; [reflexivity|]. split.
  - rewrite (json_loads_dumps _ (unique_keys_form_dict d instructions Hd)).
    reflexivity.
  - repeat split; reflexivity.
Qed.

Lemma return_form_text_loads_back_witness :
  exists (text : string) (descriptor form : dict),
    fst (return_form
           (ArgStr (json_dumps (JDict [ ("amount", JStr "100");
                                        ("date", JStr "2024-05-01") ])))
           {| actions := {| skip_summarization := None; escalate := None;
                            other_actions := ∅ |};
              other_attributes := ∅ |}
           (Some "Fill in the form"))
    = Return text
    /\ json_loads text = Return (JDict descriptor)
    /\ getitem "form_data" descriptor
       = Some (JDict [ ("amount", JStr "100"); ("date", JStr "2024-05-01") ])
    /\ getitem "form" descriptor = Some (JDict form)
    /\ getitem "required" form = Some (JList [ JStr "amount"; JStr "date" ])
    /\ getitem "instructions" descriptor = Some (JStr "Fill in the form").
Proof.
  apply (return_form_text_loads_back _ _ (Some "Fill in the form")
           [ ("amount", JStr "100"); ("date", JStr "2024-05-01") ]).
  - vm_compute. reflexivity.
  - reflexivity.
Defined.

(** X8.  Given the JSON text of a value that is not an object (a list, a
    number, [null], or a snapshot serialised twice, which is a JSON string),
    [return_form] decodes once, sets both flags, and then raises
    [AttributeError]: no form is returned although the context is
    escalated. *)
Theorem return_form_non_object_text (v : json) (tool_context : ToolContext)
    (instructions : option string) :
  unique_keys v = true ->
  is_dict v = false ->
  return_form (ArgStr (json_dumps v)) tool_context instructions
  = (Raise AttributeError, escalated tool_context).
Proof.
  intros Hv Hdict. unfold return_form. cbn [load_form_request].
  rewrite (json_loads_dumps _ Hv).
  destruct v; try discriminate Hdict; reflexivity.
Qed.

Lemma return_form_non_object_text_witness :
  let tool_context :=
    {| actions := {| skip_summarization := None; escalate := None;
                     other_actions := ∅ |};
       other_attributes := ∅ |} in
  return_form
    (ArgStr (json_dumps (JStr (json_dumps (JDict [ ("date", JStr "2024-05-01") ])))))
    tool_context None
  = (Raise AttributeError, escalated tool_context).
Proof.
  cbv zeta. apply return_form_non_object_text; reflexivity.
Defined.

Lemma json_loads_blank (s : string) :
  skip_ws s = "" -> json_loads s = Raise JSONDecodeError.
Proof.
  intros Hs. unfold json_loads, decode. rewrite Hs.
  rewrite Nat.add_comm. reflexivity.
Qed.

(** X9.  Given an empty text, or one of whitespace only, [return_form] raises
    [JSONDecodeError] and leaves the context as it was. *)
Theorem return_form_blank_text (s : string) (tool_context : ToolContext)
    (instructions : option string) :
  skip_ws s = "" ->
  return_form (ArgStr s) tool_context instructions
  = (Raise JSONDecodeError, tool_context).
Proof.
  intros Hs. unfold return_form. cbn [load_form_request].
  rewrite (json_loads_blank _ Hs). reflexivity.
Qed.

Lemma return_form_blank_text_witness :
  let tool_context :=
    {| actions := {| skip_summarization := None; escalate := None;
                     other_actions := ∅ |};
       other_attributes := ∅ |} in
  return_form (ArgStr "   ") tool_context None
  = (Raise JSONDecodeError, tool_context).
Proof.
  cbv zeta. apply return_form_blank_text. reflexivity.
Defined.

(** ** From [create_request_form] to [return_form] *)

(** X10.  Whatever the arguments, the snapshot [create_request_form] returns
    is accepted by [return_form], as it is or serialised by [json.dumps]:
    the form is returned with the four fields [request_id], [date],
    [amount] and [purpose] required, in this order, and the context is
    escalated. *)
Theorem created_snapshot_forms (date amount purpose : option string) (w : world)
    (tool_context : ToolContext) (instructions : option string) :
  exists snapshot : dict,
    fst (create_request_form date amount purpose w) = Return snapshot
    /\ return_form (ArgDict snapshot) tool_context instructions
       = (Return (json_dumps
                    (form_dict [ "request_id"; "date"; "amount"; "purpose" ]
                       (JDict snapshot) instructions)),
          escalated tool_context)
    /\ return_form (ArgStr (json_dumps (JDict snapshot))) tool_context instructions
       = return_form (ArgDict snapshot) tool_context instructions.
Proof.
  rewrite create_request_form_unfold. cbn [fst].
  eexists. split; [reflexivity|]. split; [reflexivity|].
  unfold return_form. cbn [load_form_request].
  rewrite json_loads_dumps; reflexivity.
Qed.

(** ** The returned text is printable ASCII *)

Lemma printable_app (a b : string) :
  printable_ascii (a +:+ b) = printable_ascii a && printable_ascii b.
Proof.
  induction a as [|c a IH]; [reflexivity|].
  rewrite string_app_cons. cbn [printable_ascii]. rewrite IH, andb_assoc. reflexivity.
Qed.

Lemma printable_escape_char (c : ascii) : printable_ascii (escape_char c) = true.
Proof. ascii_cases c; reflexivity. Qed.

Lemma printable_escape_string (s : string) : printable_ascii (escape_string s) = true.
Proof.
  induction s as [|c s IH]; [reflexivity|].
  cbn [escape_string]. rewrite printable_app, printable_escape_char, IH. reflexivity.
Qed.

Lemma printable_encode (s : string) : printable_ascii (encode_basestring_ascii s) = true.
Proof.
  unfold encode_basestring_ascii. cbn [printable_ascii].
  rewrite printable_app, printable_escape_string. reflexivity.
Qed.

Lemma printable_pretty_N_char (d : N) :
  printable_ascii (String (pretty_N_char d) "") = true.
Proof.
  unfold pretty_N_char.
  repeat (match goal with |- context [match ?x with _ => _ end] => destruct x end;
          try reflexivity).
Qed.

Lemma printable_pretty_N_go (x : N) (s : string) :
  printable_ascii (pretty_N_go x s) = printable_ascii s.
Proof.
  revert s. induction (N.lt_wf_0 x) as [x _ IH]; intros s.
  destruct (N.eq_dec x 0) as [->|Hx].
  - rewrite pretty_N_go_0. reflexivity.
  - rewrite (pretty_N_go_step x) by lia.
    rewrite IH by (apply N.div_lt; lia).
    change (String ?c s) with (String c "" +:+ s).
    rewrite printable_app, printable_pretty_N_char. reflexivity.
Qed.

Lemma printable_str (z : Z) : printable_ascii (str z) = true.
Proof.
  unfold str, pretty, pretty_Z. destruct z as [|p|p]; [reflexivity| |].
  - unfold pretty, pretty_positive, pretty, pretty_N.
    destruct (decide (N.pos p = 0%N)); [reflexivity|].
    apply printable_pretty_N_go.
  - unfold pretty, pretty_positive, pretty, pretty_N.
    destruct (decide (N.pos p = 0%N)); [reflexivity|].
    rewrite printable_app, printable_pretty_N_go. reflexivity.
Qed.

Lemma printable_concat (sep : string) (l : list string) :
  printable_ascii sep = true ->
  Forall (fun x => printable_ascii x = true) l ->
  printable_ascii (String.concat sep l) = true.
Proof.
  intros Hsep Hl. induction Hl as [|x l Hx Hl IH]; [reflexivity|].
  destruct l as [|y l]; [exact Hx|].
  rewrite concat_cons2, !printable_app, Hx, Hsep, IH. reflexivity.
Qed.

Lemma printable_json_dumps (v : json) : printable_ascii (json_dumps v) = true.
Proof.
  induction v as [|b|z|s|l IH|d IH] using json_induction; cbn [json_dumps].
  - reflexivity.
  - destruct b; reflexivity.
  - apply printable_str.
  - apply printable_encode.
  - rewrite !printable_app, printable_concat; [reflexivity|reflexivity|].
    apply Forall_fmap. exact IH.
  - rewrite !printable_app, printable_concat; [reflexivity|reflexivity|].
    apply Forall_fmap. eapply Forall_impl; [exact IH|].
    intros [k x] Hx. unfold compose. cbv beta. cbn [fst snd] in *.
    rewrite !printable_app, printable_encode, Hx. reflexivity.
Qed.

(** X11.  Whenever [return_form] returns, the text is printable ASCII, from
    space to tilde, whatever characters the snapshot and the instructions
    hold: every other character is written as an escape. *)
Theorem return_form_text_printable (form_request : form_request_arg)
    (tool_context : ToolContext) (instructions : option string) (text : string) :
  fst (return_form form_request tool_context instructions) = Return text ->
  printable_ascii text = true.
Proof.
  unfold return_form.
  destruct (load_form_request form_request) as [v| |]; try discriminate.
  destruct (keys_method v) as [required| |]; try discriminate.
  cbn [fst]. intros H.
  assert (text = json_dumps (form_dict required v instructions)) as ->
    by congruence.
  apply printable_json_dumps.
Qed.

Lemma return_form_text_printable_witness :
  printable_ascii
    (json_dumps
       (form_dict [ "purpose" ]
          (JDict [ ("purpose", JStr (String "233"%char (String "010"%char "x"))) ])
          None))
  = true.
Proof.
  apply (return_form_text_printable
           (ArgDict [ ("purpose", JStr (String "233"%char (String "010"%char "x"))) ])
           {| actions := {| skip_summarization := None; escalate := None;
                            other_actions := ∅ |};
              other_attributes := ∅ |}
           None).
  reflexivity.
Defined.

(** ** Starting the server *)

(** X12.  When [GOOGLE_GENAI_USE_VERTEXAI] is not exactly [TRUE] and
    [GOOGLE_API_KEY] is unset or empty, [main] does not start the server:
    it logs the missing-key error and exits with status 1, whatever the
    host and the port. *)
Theorem main_missing_api_key (host : string) (port : Z) (environ : gmap string string)
    (serve : AgentCard -> string -> Z -> option startup_error) :
  environ !! "GOOGLE_GENAI_USE_VERTEXAI" <> Some "TRUE" ->
  environ !! "GOOGLE_API_KEY" = None \/ environ !! "GOOGLE_API_KEY" = Some "" ->
  main host port environ serve
  = ([ "Error: GOOGLE_API_KEY environment variable not set and GOOGLE_GENAI_USE_VERTEXAI is not TRUE." ],
     Some 1).
Proof.
  intros Hvertex Hkey. unfold main, main_try, getenv.
  assert (is_TRUE (environ !! "GOOGLE_GENAI_USE_VERTEXAI") = false) as ->.
  { destruct (environ !! "GOOGLE_GENAI_USE_VERTEXAI") as [v|]; [|reflexivity].
    cbn [is_TRUE]. destruct (String.eqb_spec v "TRUE") as [->|_]; [|reflexivity].
    destruct (Hvertex eq_refl). }
  assert (falsy (environ !! "GOOGLE_API_KEY") = true) as ->
    by (destruct Hkey as [-> | ->]; reflexivity).
  reflexivity.
Qed.

Lemma main_missing_api_key_witness :
  main "localhost" 13002
    ({[ "GOOGLE_GENAI_USE_VERTEXAI" := "true" ]} : gmap string string)
    (fun _ _ _ => None)
  = ([ "Error: GOOGLE_API_KEY environment variable not set and GOOGLE_GENAI_USE_VERTEXAI is not TRUE." ],
     Some 1).
Proof.
  apply main_missing_api_key.
  - rewrite lookup_singleton_eq. discriminate.
  - left. apply lookup_singleton_ne. discriminate.
Defined.



(** ** A snapshot read from text has no repeated key *)

Lemma keys_setitem (k : string) (v : json) (d : dict) :
  map fst (setitem k v d)
  = if existsb (String.eqb k) (map fst d) then map fst d
    else (map fst d ++ [k])%list.
Proof.
  induction d as [|[k' v'] d IH]; [reflexivity|].
  cbn [setitem map fst existsb].
  destruct (String.eqb_spec k k') as [->|Hne]; [reflexivity|].
  cbn [map fst orb]. rewrite IH.
  destruct (existsb (String.eqb k) (map fst d)); reflexivity.
Qed.

Lemma setitem_NoDup (k : string) (v : json) (d : dict) :
  NoDup (map fst d) -> NoDup (map fst (setitem k v d)).
Proof.
  intros Hd. rewrite keys_setitem.
  destruct (existsb (String.eqb k) (map fst d)) eqn:Hk; [exact Hd|].
  apply NoDup_app. split; [exact Hd|]. split.
  - intros x Hx Hin. apply list_elem_of_singleton in Hin as ->.
    apply existsb_eqb_elem_of in Hx. congruence.
  - apply NoDup_singleton.
Qed.

Lemma dict_of_pairs_NoDup (pairs : list (string * json)) :
  NoDup (map fst (dict_of_pairs pairs)).
Proof.
  unfold dict_of_pairs.
  assert (forall d, NoDup (map fst d) ->
                    NoDup (map fst (fold_left
                                      (fun d kv => setitem (fst kv) (snd kv) d) pairs d)))
    as H.
  { induction pairs as [|[k v] pairs IH]; intros d Hd; [exact Hd|].
    cbn [fold_left fst snd]. apply IH, setitem_NoDup, Hd. }
  apply H. constructor.
Qed.

Lemma object_loop_gives_dict (fuel : nat) :
  forall (pairs : list (string * json)) (s : string) (v : json) (r : string),
    object_loop fuel pairs s = Scanned v r ->
    exists ps, v = JDict (dict_of_pairs ps).
Proof.
  induction fuel as [|fuel IH]; intros pairs s v r; [discriminate|].
  rewrite object_loop_S.
  destruct (scanstring s) as [key r0| | |]; try discriminate.
  destruct (strip_prefix ":" (skip_ws r0)) as [r1|]; [|discriminate].
  destruct (scan_once fuel (skip_ws r1)) as [value r2| | |]; try discriminate.
  destruct (strip_prefix "}" (skip_ws r2)) as [r3|].
  { intros H. injection H as <- _. eexists. reflexivity. }
  destruct (strip_prefix "," (skip_ws r2)) as [r3|]; [|discriminate].
  destruct (strip_prefix (String dquote "") (skip_ws r3)) as [r4|]; [|discriminate].
  apply IH.
Qed.

Lemma array_loop_gives_list (fuel : nat) :
  forall (values : list json) (s : string) (v : json) (r : string),
    array_loop fuel values s = Scanned v r -> is_dict v = false.
Proof.
  induction fuel as [|fuel IH]; intros values s v r; [discriminate|].
  rewrite array_loop_S.
  destruct (scan_once fuel s) as [value r0| | |]; try discriminate.
  destruct (strip_prefix "]" (skip_ws r0)) as [r1|].
  { intros H. injection H as <- _. reflexivity. }
  destruct (strip_prefix "," (skip_ws r0)) as [r1|]; [|discriminate].
  apply IH.
Qed.

Lemma match_number_gives_int (s : string) (v : json) (r : string) :
  match_number s = Some (Scanned v r) -> is_dict v = false.
Proof.
  unfold match_number.
  destruct (strip_prefix "-" s) as [s1|].
  - destruct s1 as [|c r0]; [discriminate|].
    destruct (Ascii.eqb c "0").
    + destruct (float_tail r0); intros H; [discriminate H|].
      injection H as <- _. reflexivity.
    + destruct (is_digit c); [|discriminate].
      destruct (digits (digit_value c) r0) as [n r'].
      destruct (float_tail r'); intros H; [discriminate H|].
      injection H as <- _. reflexivity.
  - destruct s as [|c r0]; [discriminate|].
    destruct (Ascii.eqb c "0").
    + destruct (float_tail r0); intros H; [discriminate H|].
      injection H as <- _. reflexivity.
    + destruct (is_digit c); [|discriminate].
      destruct (digits (digit_value c) r0) as [n r'].
      destruct (float_tail r'); intros H; [discriminate H|].
      injection H as <- _. reflexivity.
Qed.

Lemma scan_constant_not_dict (s : string) (v : json) (r : string) :
  scan_constant s = Scanned v r -> is_dict v = false.
Proof.
  unfold scan_constant.
  destruct (strip_prefix "null" s); [intros H; injection H as <- _; reflexivity|].
  destruct (strip_prefix "true" s); [intros H; injection H as <- _; reflexivity|].
  destruct (strip_prefix "false" s); [intros H; injection H as <- _; reflexivity|].
  destruct (match_number s) as [x|] eqn:Hm.
  { intros ->. exact (match_number_gives_int _ _ _ Hm). }
  destruct (strip_prefix "NaN" s), (strip_prefix "Infinity" s),
    (strip_prefix "-Infinity" s); discriminate.
Qed.

Lemma scan_once_dict_keys (fuel : nat) (s : string) (d : dict) (r : string) :
  scan_once fuel s = Scanned (JDict d) r -> NoDup (map fst d).
Proof.
  destruct fuel as [|fuel]; [discriminate|]. rewrite scan_once_S.
  destruct s as [|c s']; [discriminate|].
  destruct (Ascii.eqb c dquote).
  { intros H. apply scan_map_scanned in H as (k & _ & H). discriminate H. }
  destruct (Ascii.eqb c "{").
  { destruct (strip_prefix "}" (skip_ws s')).
    { intros H. injection H as <- _. constructor. }
    destruct (strip_prefix (String dquote "") (skip_ws s')); [|discriminate].
    intros H. apply object_loop_gives_dict in H as (ps & H).
    injection H as ->. apply dict_of_pairs_NoDup. }
  destruct (Ascii.eqb c "[").
  { destruct (strip_prefix "]" (skip_ws s')); [discriminate|].
    intros H. apply array_loop_gives_list in H. discriminate H. }
  intros H. apply scan_constant_not_dict in H. discriminate H.
Qed.

(** X14.  A snapshot that reaches [return_form] as text never has a key
    twice, also when the text repeats one: [json.loads] keeps one entry per
    key.  So [required] never names a field twice. *)
Theorem text_snapshot_keys_distinct (s : string) (d : dict) :
  snapshot_of (ArgStr s) = Some d -> NoDup (keys d).
Proof.
  unfold snapshot_of. cbn [load_form_request]. unfold json_loads, decode.
  destruct (scan_once _ (skip_ws s)) as [v r| | |] eqn:Hscan; try discriminate.
  destruct (skip_ws r); [|discriminate].
  destruct v; try discriminate. intros H. injection H as ->.
  exact (scan_once_dict_keys _ _ _ _ Hscan).
Qed.

Lemma text_snapshot_keys_distinct_witness :
  NoDup (keys [ ("date", JStr "2024-06-02"); ("amount", JStr "100") ]).
Proof.
  apply (text_snapshot_keys_distinct
           ("{" +:+ json_dumps (JStr "date") +:+ ":" +:+ json_dumps (JStr "2024-05-01")
            +:+ "," +:+ json_dumps (JStr "amount") +:+ ":" +:+ json_dumps (JStr "100")
            +:+ "," +:+ json_dumps (JStr "date") +:+ ":" +:+ json_dumps (JStr "2024-06-02")
            +:+ "}")).
  vm_compute. reflexivity.
Defined.

(** ** The returned text tells the snapshot *)

Lemma of_optional_str_inj (a b : option string) :
  of_optional_str a = of_optional_str b -> a = b.
Proof. destruct a, b; cbn; congruence. Qed.

(** X15.  Two calls of [return_form] return the same text only for the same
    snapshot and the same instructions: nothing of either is lost in the
    text. *)
Theorem return_form_text_injective (d1 d2 : dict) (c1 c2 : ToolContext)
    (i1 i2 : option string) :
  unique_keys (JDict d1) = true ->
  unique_keys (JDict d2) = true ->
  fst (return_form (ArgDict d1) c1 i1) = fst (return_form (ArgDict d2) c2 i2) ->
  d1 = d2 /\ i1 = i2.
Proof.
  intros H1 H2.
  rewrite !(return_form_snapshot (ArgDict _) _ _ _ eq_refl). cbn [fst].
  intros H.
  assert (json_dumps (form_dict (keys d1) (JDict d1) i1)
          = json_dumps (form_dict (keys d2) (JDict d2) i2)) as Htext by congruence.
  apply (f_equal json_loads) in Htext.
  rewrite !json_loads_dumps in Htext by (apply unique_keys_form_dict; assumption).
  unfold form_dict in Htext.
  assert (JDict d1 = JDict d2 /\ of_optional_str i1 = of_optional_str i2) as [Hd Hi]
    by (split; congruence).
  split; [congruence|]. apply of_optional_str_inj, Hi.
Qed.

Lemma return_form_text_injective_witness :
  [ ("date", JStr "2024-05-01") ] = [ ("date", JStr "2024-05-01") ]
  /\ Some "Fill in" = Some "Fill in".
Proof.
  apply (return_form_text_injective _ _
           {| actions := {| skip_summarization := None; escalate := None;
                            other_actions := ∅ |};
              other_attributes := ∅ |}
           {| actions := {| skip_summarization := Some true; escalate := Some true;
                            other_actions := ∅ |};
              other_attributes := ∅ |});
    reflexivity.
Defined.
